(** * youtube_mcp: channel references, quota budgeting and listing pipelines

    A shallow embedding of the core of [src/youtube_mcp] and the proofs of
    its specified properties.

    Conventions of the embedding:
    - a Python [str] is a [string] whose characters are code points below
      256; an [int] is a [Z];
    - a decoded backend response is a [json] value, a Python [dict] with
      string keys is an association list read with [dict_get];
    - an exception is a value of [exn]; fallible code returns [result];
    - code that talks to the injected client runs in the monad [M], which
      threads the state of the client and the trace of the calls issued. *)

From Stdlib Require Import ZArith Ascii String List Bool Lia.
From Stdlib Require Import Numbers.DecimalString Numbers.DecimalPos.
From Stdlib Require Import Sorting.Sorted.
From stdpp Require Import base option list strings gmap.

Set Warnings "-register-all".

Local Open Scope string_scope.
Local Open Scope Z_scope.

(** ** Python values *)

Module Py.

(** The exception classes the core raises or lets through.  The three
    classes of the repository that derive from [ValueError] are listed by
    [is_value_error]. *)
Inductive exn : Type :=
  | ChannelRefParseError (msg : string)
  | ChannelResolutionError (msg : string)
  | QuotaBudgetExceeded (msg : string)
  | ChannelInventoryError (msg : string)
  | ValueError (msg : string)
  | TypeError
  | AttributeError
  | NotImplementedError
  | YouTubeApiError (msg : string).

Definition is_value_error (e : exn) : bool :=
  match e with
  | ChannelRefParseError _ | ChannelResolutionError _
  | QuotaBudgetExceeded _ | ValueError _ => true
  | _ => false
  end.

Inductive result (A : Type) : Type :=
  | Ok (a : A)
  | Raise (e : exn).
Arguments Ok {A} a.
Arguments Raise {A} e.

Definition rbind {A B} (r : result A) (k : A -> result B) : result B :=
  match r with
  | Ok a => k a
  | Raise e => Raise e
  end.

(** Decoded JSON, as [json.loads] builds it (numbers are integers here). *)
Inductive json : Type :=
  | JNull
  | JBool (b : bool)
  | JNum (n : Z)
  | JStr (s : string)
  | JList (l : list json)
  | JDict (d : list (string * json)).

Definition dict : Type := list (string * json).

(** [d.get(k)]: the value bound to [k], [None] (here [JNull]) otherwise. *)
Fixpoint dict_get (d : dict) (k : string) : json :=
  match d with
  | [] => JNull
  | (k', v) :: d' => if String.eqb k' k then v else dict_get d' k
  end.

(** [v if isinstance(v, str) and v else None] *)
Definition nonempty_str (v : json) : option string :=
  match v with
  | JStr s => if String.eqb s "" then None else Some s
  | _ => None
  end.

(** ** [str] operations *)

Definition code (c : ascii) : Z := Z.of_nat (nat_of_ascii c).

(** [str.isspace] on one character (code points below 256). *)
Definition is_space (c : ascii) : bool :=
  let n := code c in
  ((9 <=? n) && (n <=? 13)) || ((28 <=? n) && (n <=? 32))
  || (n =? 133) || (n =? 160).

Fixpoint lstrip_by (p : ascii -> bool) (s : string) : string :=
  match s with
  | EmptyString => EmptyString
  | String c s' => if p c then lstrip_by p s' else s
  end.

Fixpoint rstrip_by (p : ascii -> bool) (s : string) : string :=
  match s with
  | EmptyString => EmptyString
  | String c s' =>
      match rstrip_by p s' with
      | EmptyString => if p c then EmptyString else String c EmptyString
      | r => String c r
      end
  end.

Definition strip_by (p : ascii -> bool) (s : string) : string :=
  rstrip_by p (lstrip_by p s).

(** [s.strip()] *)
Definition strip (s : string) : string := strip_by is_space s.

(** [s.strip(chars)] for a one-character [chars] *)
Definition strip_char (c : ascii) (s : string) : string :=
  strip_by (Ascii.eqb c) s.

(** [s.startswith(p)] *)
Definition startswith (s p : string) : bool := String.prefix p s.

(** [s[n:]] for [0 <= n] *)
Fixpoint drop_str (n : nat) (s : string) : string :=
  match n, s with
  | O, _ => s
  | S n', String _ s' => drop_str n' s'
  | S _, EmptyString => EmptyString
  end.

(** [c in s] *)
Fixpoint contains (c : ascii) (s : string) : bool :=
  match s with
  | EmptyString => false
  | String c' s' => Ascii.eqb c' c || contains c s'
  end.

Definition lower_char (c : ascii) : ascii :=
  let n := code c in
  if ((65 <=? n) && (n <=? 90))
     || ((192 <=? n) && (n <=? 222) && negb (n =? 215))
  then ascii_of_nat (nat_of_ascii c + 32) else c.

(** [s.lower()] *)
Fixpoint lower (s : string) : string :=
  match s with
  | EmptyString => EmptyString
  | String c s' => String (lower_char c) (lower s')
  end.

(** [str(n)] *)
Definition str_of_int (n : Z) : string := NilZero.string_of_int (Z.to_int n).

(** [sep.join(l)] *)
Fixpoint join (sep : string) (l : list string) : string :=
  match l with
  | [] => ""
  | [s] => s
  | s :: l' => s ++ sep ++ join sep l'
  end.

End Py.
Export Py.

(** ** [urllib.parse.urlparse]

    The parser is a collaborator of [channel_ref]: the embedding of the
    repository takes it as a parameter.  [UrlParse.urlparse] below follows
    the library function, and is the instance the worked examples run on. *)

Module UrlParse.

Record ParseResult : Type := {
  scheme : string;
  netloc : string;
  path : string;
  params : string;
  query : string;
  fragment : string
}.

Definition scheme_char (c : ascii) : bool :=
  let n := code c in
  ((97 <=? n) && (n <=? 122)) || ((65 <=? n) && (n <=? 90))
  || ((48 <=? n) && (n <=? 57)) || (n =? 43) || (n =? 45) || (n =? 46).

Definition ascii_alpha (c : ascii) : bool :=
  let n := code c in
  ((97 <=? n) && (n <=? 122)) || ((65 <=? n) && (n <=? 90)).

Fixpoint remove_chars (p : ascii -> bool) (s : string) : string :=
  match s with
  | EmptyString => EmptyString
  | String c s' => if p c then remove_chars p s' else String c (remove_chars p s')
  end.

(** [span p s]: the longest prefix of [s] whose characters all fail [p],
    and the rest (which starts with a character satisfying [p], or is
    empty). *)
Fixpoint span (p : ascii -> bool) (s : string) : string * string :=
  match s with
  | EmptyString => (EmptyString, EmptyString)
  | String c s' =>
      if p c then (EmptyString, s)
      else let '(a, b) := span p s' in (String c a, b)
  end.

Fixpoint forall_chars (p : ascii -> bool) (s : string) : bool :=
  match s with
  | EmptyString => true
  | String c s' => p c && forall_chars p s'
  end.

Definition is_char (c : ascii) : ascii -> bool := Ascii.eqb c.

Definition uses_params : list string :=
  [""; "ftp"; "hdl"; "prospero"; "http"; "imap"; "https"; "shttp"; "rtsp";
   "rtspu"; "sip"; "sips"; "mms"; "sftp"; "tel"].

Definition mem_str (s : string) (l : list string) : bool :=
  existsb (String.eqb s) l.

(** The scheme of [url] and what follows it. *)
Definition split_scheme (url : string) : string * string :=
  match span (is_char ":") url with
  | (String c0 pre, String _ rest) =>
      if ascii_alpha c0 && forall_chars scheme_char (String c0 pre)
      then (lower (String c0 pre), rest)
      else ("", url)
  | _ => ("", url)
  end.

Definition netloc_delim (c : ascii) : bool :=
  is_char "/" c || is_char "?" c || is_char "#" c.

(** [_splitparams]: the parameters are looked for after the last slash. *)
Fixpoint split_last_slash (s : string) : string * string :=
  match s with
  | EmptyString => (EmptyString, EmptyString)
  | String c s' =>
      if contains "/" s'
      then let '(a, b) := split_last_slash s' in (String c a, b)
      else (EmptyString, s)
  end.

Definition _splitparams (url : string) : string * string :=
  let '(head, tail) := split_last_slash url in
  match span (is_char ";") tail with
  | (a, String _ b) => (head ++ a, b)
  | (_, EmptyString) => (url, "")
  end.

(** [urlparse(url)].  A network location with a square bracket is sent
    by the library through an address validation that is outside this
    model; it is answered here by the [ValueError] of an invalid address. *)
Definition urlparse (url : string) : result ParseResult :=
  let url := lstrip_by (fun c => code c <=? 32) url in
  let url := remove_chars (fun c => is_char "009" c || is_char "013" c || is_char "010" c) url in
  let '(sch, url) := split_scheme url in
  let '(loc, url) :=
    if startswith url "//"
    then span netloc_delim (drop_str 2 url)
    else ("", url) in
  if contains "[" loc || contains "]" loc
  then Raise (ValueError "Invalid IPv6 URL")
  else
    let '(url, frag) :=
      match span (is_char "#") url with
      | (a, String _ b) => (a, b)
      | (a, EmptyString) => (a, "")
      end in
    let '(url, qry) :=
      match span (is_char "?") url with
      | (a, String _ b) => (a, b)
      | (a, EmptyString) => (a, "")
      end in
    let '(url, prm) :=
      if mem_str sch uses_params && contains ";" url
      then _splitparams url else (url, "") in
    Ok {| scheme := sch; netloc := loc; path := url; params := prm;
          query := qry; fragment := frag |}.

End UrlParse.

(** ** channel_ref.py *)

Module ChannelRef.
Import UrlParse.

Inductive ChannelRefKind : Type :=
  | handle | channel_id | username | custom_url | query.

Record ChannelRef : Type := {
  kind : ChannelRefKind;
  value : string;
  raw : string
}.

Definition _YOUTUBE_HOSTS : list string :=
  ["youtube.com"; "www.youtube.com"; "m.youtube.com"].

Definition _PATH_AT_HANDLE : string := "/@".
Definition _PATH_CHANNEL : string := "/channel/".
Definition _PATH_USER : string := "/user/".
Definition _PATH_CUSTOM : string := "/c/".
Definition _MIN_CHANNEL_ID_LEN : Z := 16.

Definition _require_non_empty (value message : string) : result unit :=
  if String.eqb value "" then Raise (ChannelRefParseError message) else Ok tt.

Definition has_separator (value : string) : bool :=
  contains "/" value || contains "?" value || contains "#" value.

Definition _reject_separators (value label : string) : result unit :=
  if has_separator value
  then Raise (ChannelRefParseError (label ++ " contains invalid URL separator characters"))
  else Ok tt.

Definition _normalize_raw (user_input : string) : result string :=
  let raw := strip user_input in
  rbind (_require_non_empty raw "Channel reference cannot be empty")
        (fun _ => Ok raw).

Definition _looks_like_channel_id (value : string) : bool :=
  startswith value "UC"
  && (_MIN_CHANNEL_ID_LEN <=? Z.of_nat (String.length value))
  && negb (contains " " value).

(** One arm of the path dispatch: the segment after [prefix], slashes
    stripped, checked, and tagged with [k]. *)
Definition _segment (k : ChannelRefKind) (prefix label empty_msg : string)
    (path raw : string) : result (option ChannelRef) :=
  let seg := strip_char "/" (drop_str (String.length prefix) path) in
  rbind (_require_non_empty seg empty_msg) (fun _ =>
  rbind (_reject_separators seg label) (fun _ =>
  Ok (Some {| kind := k; value := seg; raw := raw |}))).

Section WithUrlparse.
Variable urlparse : string -> result ParseResult.

Definition _try_parse_youtube_url (raw : string) : result (option ChannelRef) :=
  let candidate :=
    if startswith raw "youtube.com/" || startswith raw "www.youtube.com/"
       || startswith raw "m.youtube.com/"
    then "https://" ++ raw else raw in
  rbind (urlparse candidate) (fun parsed =>
  if negb (String.eqb (scheme parsed) "")
     && negb (mem_str (scheme parsed) ["http"; "https"])
  then Ok None
  else
    let host := lower (netloc parsed) in
    if String.eqb host "" || negb (mem_str host _YOUTUBE_HOSTS)
    then Ok None
    else
      let path := path parsed in
      if startswith path _PATH_AT_HANDLE
      then _segment handle _PATH_AT_HANDLE "Handle" "Handle cannot be empty" path raw
      else if startswith path _PATH_CHANNEL
      then _segment channel_id _PATH_CHANNEL "Channel ID" "Channel ID cannot be empty" path raw
      else if startswith path _PATH_USER
      then _segment username _PATH_USER "Username" "Username cannot be empty" path raw
      else if startswith path _PATH_CUSTOM
      then _segment custom_url _PATH_CUSTOM "Custom URL segment"
                    "Custom URL segment cannot be empty" path raw
      else Ok (Some {| kind := query; value := raw; raw := raw |})).

Definition parse_channel_ref (user_input : string) : result ChannelRef :=
  rbind (_normalize_raw user_input) (fun raw =>
  if startswith raw "@"
  then
    let handle_ := strip (drop_str 1 raw) in
    rbind (_require_non_empty handle_ "Handle cannot be empty") (fun _ =>
    rbind (_reject_separators handle_ "Handle") (fun _ =>
    Ok {| kind := handle; value := handle_; raw := raw |}))
  else if _looks_like_channel_id raw
  then Ok {| kind := channel_id; value := raw; raw := raw |}
  else
    rbind (_try_parse_youtube_url raw) (fun parsed =>
    match parsed with
    | Some r => Ok r
    | None => Ok {| kind := query; value := raw; raw := raw |}
    end)).

End WithUrlparse.
End ChannelRef.

(** ** quota_budgeter.py *)

Module QuotaBudgeter.

Definition DEFAULT_MAX_VIDEOS : Z := 200.
Definition DEFAULT_MAX_PAGES : Z := 10.
Definition DEFAULT_VIDEOS_LIST_BATCH : Z := 50.
Definition QUOTA_COST_READ : Z := 1.
Definition QUOTA_COST_SEARCH : Z := 100.

Record QuotaBudget : Type := {
  max_videos : Z;
  max_pages : Z;
  max_quota_units : Z
}.

Record QuotaEstimate : Type := {
  estimated_units : Z;
  strategy : string;
  notes : list string
}.

Definition NOTE_MAX_VIDEOS : string :=
  "requested_max_videos truncated to budget.max_videos".
Definition NOTE_MAX_PAGES : string := "pages truncated to budget.max_pages".
Definition NOTE_SEARCH_CAP : string :=
  "search_api is capped to 500 videos by API behavior".

Definition exceeded (units : Z) (budget : QuotaBudget) : exn :=
  QuotaBudgetExceeded
    ("Estimated quota " ++ str_of_int units ++ " exceeds max_quota_units="
     ++ str_of_int (max_quota_units budget)).

Definition estimate_channel_videos_quota (strategy : string)
    (requested_max_videos : Z) (budget : QuotaBudget)
    (include_video_details : bool) : result QuotaEstimate :=
  if requested_max_videos <=? 0
  then Raise (ValueError "requested_max_videos must be positive")
  else
    let max_videos_ := Z.min requested_max_videos (max_videos budget) in
    let pages := (max_videos_ + 49) / 50 in
    let pages := Z.min pages (max_pages budget) in
    let notes : list string := [] in
    let notes :=
      if requested_max_videos >? max_videos budget
      then (notes ++ [NOTE_MAX_VIDEOS])%list else notes in
    let notes :=
      if pages <? (max_videos_ + 49) / 50
      then (notes ++ [NOTE_MAX_PAGES])%list else notes in
    if String.eqb strategy "uploads_playlist" || String.eqb strategy "local_sort"
    then
      let units := pages * QUOTA_COST_READ in
      let units :=
        if include_video_details
        then
          let batches :=
            (max_videos_ + (DEFAULT_VIDEOS_LIST_BATCH - 1)) / DEFAULT_VIDEOS_LIST_BATCH in
          units + batches * QUOTA_COST_READ
        else units in
      if units >? max_quota_units budget
      then Raise (exceeded units budget)
      else Ok {| estimated_units := units; strategy := strategy; notes := notes |}
    else if String.eqb strategy "search_api"
    then
      let capped_videos := Z.min max_videos_ 500 in
      let notes :=
        if capped_videos <? max_videos_
        then (notes ++ [NOTE_SEARCH_CAP])%list else notes in
      let pages := Z.min ((capped_videos + 49) / 50) (max_pages budget) in
      let units := pages * QUOTA_COST_SEARCH in
      let units :=
        if include_video_details
        then
          let batches :=
            (capped_videos + (DEFAULT_VIDEOS_LIST_BATCH - 1)) / DEFAULT_VIDEOS_LIST_BATCH in
          units + batches * QUOTA_COST_READ
        else units in
      if units >? max_quota_units budget
      then Raise (exceeded units budget)
      else Ok {| estimated_units := units; strategy := strategy; notes := notes |}
    else Raise (ValueError ("Unknown strategy: " ++ strategy)).

End QuotaBudgeter.

(** ** video_classification.py *)

Module VideoClassification.

Definition is_digit (c : ascii) : bool :=
  let n := code c in (48 <=? n) && (n <=? 57).

Definition digit_val (c : ascii) : Z := code c - 48.

(** The digits [s] starts with, read as a number, their count, and the
    rest of [s]. *)
Fixpoint take_digits (s : string) (acc : Z) (n : nat) : Z * nat * string :=
  match s with
  | String c s' =>
      if is_digit c then take_digits s' (10 * acc + digit_val c) (S n)
      else (acc, n, s)
  | EmptyString => (acc, n, s)
  end.

(** One optional group [(?:(\d+)X)?] of the duration pattern: its number
    ([0] when the group is absent, as [int(m.group(..) or 0)] reads it)
    and what is left to match. *)
Definition duration_group (unit : ascii) (s : string) : Z * string :=
  match take_digits s 0 O with
  | (v, S _, String c rest) => if Ascii.eqb c unit then (v, rest) else (0, s)
  | _ => (0, s)
  end.

(** [_DURATION_RE.match]: [^PT(\d+H)?(\d+M)?(\d+S)?$], where [$] also
    matches before a final newline. *)
Definition parse_duration_seconds (duration : string) : option Z :=
  match duration with
  | String "P" (String "T" s) =>
      let '(h, s) := duration_group "H" s in
      let '(mi, s) := duration_group "M" s in
      let '(sec, s) := duration_group "S" s in
      if String.eqb s "" || String.eqb s (String "010" EmptyString)
      then
        if (h <? 0) || (mi <? 0) || (sec <? 0) then None
        else Some (h * 3600 + mi * 60 + sec)
      else None
  | _ => None
  end.

(** [video.get] exists on a [dict] only. *)
Definition is_short (video : json) : result bool :=
  match video with
  | JDict v =>
      match dict_get v "contentDetails" with
      | JDict cd =>
          match dict_get cd "duration" with
          | JStr duration =>
              match parse_duration_seconds duration with
              | Some seconds => Ok (seconds <=? 60)
              | None => Ok false
              end
          | _ => Ok false
          end
      | _ => Ok false
      end
  | _ => Raise AttributeError
  end.

Definition is_live (video : json) : result bool :=
  match video with
  | JDict v =>
      match dict_get v "snippet" with
      | JDict snippet =>
          match dict_get snippet "liveBroadcastContent" with
          | JStr live => Ok (String.eqb live "live" || String.eqb live "upcoming")
          | _ => Ok false
          end
      | _ => Ok false
      end
  | _ => Raise AttributeError
  end.

End VideoClassification.

(** ** video_sorting.py *)

Module VideoSorting.
Import VideoClassification.

Fixpoint filter_videos (videos : list json) (include_shorts include_live : bool)
    : result (list json) :=
  match videos with
  | [] => Ok []
  | v :: vs =>
      rbind (if negb include_shorts then is_short v else Ok false) (fun short =>
      if short then filter_videos vs include_shorts include_live
      else
        rbind (if negb include_live then is_live v else Ok false) (fun live =>
        if live then filter_videos vs include_shorts include_live
        else
          rbind (filter_videos vs include_shorts include_live) (fun out =>
          Ok (v :: out))))
  end.

(** [x or 0] *)
Definition or_zero (x : json) : json :=
  match x with
  | JNull | JBool false | JNum 0 | JStr EmptyString | JList [] | JDict [] => JNum 0
  | _ => x
  end.

(** The digits of an [int] literal: single underscores between digits. *)
Fixpoint int_digits (s : string) (acc : Z) (after_digit : bool) : option Z :=
  match s with
  | EmptyString => if after_digit then Some acc else None
  | String c s' =>
      if is_digit c then int_digits s' (10 * acc + digit_val c) true
      else if Ascii.eqb c "_" && after_digit then int_digits s' acc false
      else None
  end.

(** [int(x)] *)
Definition py_int (x : json) : result Z :=
  match x with
  | JNum n => Ok n
  | JBool b => Ok (if b then 1 else 0)
  | JStr s =>
      let s := strip s in
      let '(neg, body) :=
        match s with
        | String "-" r => (true, r)
        | String "+" r => (false, r)
        | _ => (false, s)
        end in
      match int_digits body 0 false with
      | Some n => Ok (if neg then - n else n)
      | None => Raise (ValueError "invalid literal for int() with base 10")
        (* the message goes on with the literal, left out here *)
      end
  | _ => Raise TypeError
  end.

Definition sort_key (video : dict) (order_by : string) : result Z :=
  let stats := match dict_get video "statistics" with JDict d => d | _ => [] end in
  if String.eqb order_by "viewCount"
  then py_int (or_zero (dict_get stats "viewCount"))
  else if String.eqb order_by "likeCount"
  then py_int (or_zero (dict_get stats "likeCount"))
  else if String.eqb order_by "commentCount"
  then py_int (or_zero (dict_get stats "commentCount"))
  else if String.eqb order_by "duration"
  then
    let cd := match dict_get video "contentDetails" with JDict d => d | _ => [] end in
    match dict_get cd "duration" with
    | JStr dur =>
        match parse_duration_seconds dur with
        | Some 0 | None => Ok 0
        | Some n => Ok n
        end
    | _ => Ok 0
    end
  else Ok 0.

(** [sorted(l, key=..., reverse=True)] on the keyed list: descending and
    stable.  The keys are computed first, in the order of the list. *)
Fixpoint keyed (key : json -> result Z) (l : list json) : result (list (Z * json)) :=
  match l with
  | [] => Ok []
  | v :: vs =>
      rbind (key v) (fun k =>
      rbind (keyed key vs) (fun kvs => Ok ((k, v) :: kvs)))
  end.

Fixpoint insert_desc (x : Z * json) (l : list (Z * json)) : list (Z * json) :=
  match l with
  | [] => [x]
  | y :: l' => if fst y >? fst x then y :: insert_desc x l' else x :: l
  end.

Definition sorted_desc (key : json -> result Z) (l : list json) : result (list json) :=
  rbind (keyed key l) (fun kvs => Ok (map snd (foldr insert_desc [] kvs))).

End VideoSorting.

(** ** playlist_items_extract.py *)

Module PlaylistItemsExtract.

(** [snippet.resourceId.videoId] of one playlist item, when every level
    has the expected shape. *)
Definition item_video_id (it : json) : option string :=
  match it with
  | JDict d =>
      match dict_get d "snippet" with
      | JDict snippet =>
          match dict_get snippet "resourceId" with
          | JDict resource => nonempty_str (dict_get resource "videoId")
          | _ => None
          end
      | _ => None
      end
  | _ => None
  end.

Definition limit_reached (limit : option Z) (out : list string) : bool :=
  match limit with
  | Some n => Z.of_nat (length out) >=? n
  | None => false
  end.

(** The [for] loop, with its two accumulators. *)
Fixpoint extract_loop (limit : option Z) (items : list json)
    (out : list string) (seen : gset string) : list string :=
  match items with
  | [] => out
  | it :: rest =>
      if limit_reached limit out then out
      else
        match item_video_id it with
        | None => extract_loop limit rest out seen
        | Some vid =>
            if decide (vid ∈ seen) then extract_loop limit rest out seen
            else extract_loop limit rest (out ++ [vid])%list ({[vid]} ∪ seen)
        end
  end.

Definition extract_video_ids (items : json) (limit : option Z) : list string :=
  match items with
  | JList l => extract_loop limit l [] ∅
  | _ => []
  end.

End PlaylistItemsExtract.

(** ** youtube_client_protocol.py: the injected client *)

Module Client.

Inductive operation : Type :=
  | channels_list | playlists_list | playlist_items_list
  | videos_list | search_list | comment_threads_list.

(** The value of a request parameter is a [str]; [None] is what the
    pipelines pass on when a resolved channel came back without an id. *)
Definition params : Type := list (string * option string).

Record call : Type := {
  call_op : operation;
  call_part : string;
  call_params : params
}.

(** [IYouTubeClient]: six operations, each from [part] and [params] to a
    decoded response or an exception.  [W] is whatever state the client
    keeps between calls. *)
Record IYouTubeClient (W : Type) : Type := {
  do_channels_list : string -> params -> W -> result dict * W;
  do_playlists_list : string -> params -> W -> result dict * W;
  do_playlist_items_list : string -> params -> W -> result dict * W;
  do_videos_list : string -> params -> W -> result dict * W;
  do_search_list : string -> params -> W -> result dict * W;
  do_comment_threads_list : string -> params -> W -> result dict * W
}.
Arguments do_channels_list {W}.
Arguments do_playlists_list {W}.
Arguments do_playlist_items_list {W}.
Arguments do_videos_list {W}.
Arguments do_search_list {W}.
Arguments do_comment_threads_list {W}.

Definition perform {W} (client : IYouTubeClient W) (c : call) : W -> result dict * W :=
  match call_op c with
  | channels_list => do_channels_list client (call_part c) (call_params c)
  | playlists_list => do_playlists_list client (call_part c) (call_params c)
  | playlist_items_list => do_playlist_items_list client (call_part c) (call_params c)
  | videos_list => do_videos_list client (call_part c) (call_params c)
  | search_list => do_search_list client (call_part c) (call_params c)
  | comment_threads_list => do_comment_threads_list client (call_part c) (call_params c)
  end.

(** The state a pipeline runs in: the state of the client and the calls
    issued so far, oldest first. *)
Record state (W : Type) : Type := {
  world : W;
  trace : list call
}.
Arguments world {W}.
Arguments trace {W}.

Definition M (W A : Type) : Type := state W -> result A * state W.

Definition ret {W A} (a : A) : M W A := fun st => (Ok a, st).

Definition raise {W A} (e : exn) : M W A := fun st => (Raise e, st).

Definition bind {W A B} (m : M W A) (k : A -> M W B) : M W B :=
  fun st =>
    match m st with
    | (Ok a, st') => k a st'
    | (Raise e, st') => (Raise e, st')
    end.

Definition lift {W A} (r : result A) : M W A := fun st => (r, st).

(** One call of the client: the call is recorded, then answered. *)
Definition invoke {W} (client : IYouTubeClient W) (op : operation)
    (part : string) (ps : params) : M W dict :=
  fun st =>
    let c := {| call_op := op; call_part := part; call_params := ps |} in
    let '(r, w) := perform client c (world st) in
    (r, {| world := w; trace := (trace st ++ [c])%list |}).

End Client.

Notation "'let*' x ':=' c1 'in' c2" := (Client.bind c1 (fun x => c2))
  (at level 10, x pattern, c1 at level 100, c2 at level 200).

(** The Python value is truthy: a [str] that is not [None] and not empty. *)
Definition truthy (s : option string) : bool :=
  match s with
  | Some s => negb (String.eqb s "")
  | None => false
  end.

(** [l[:n]] *)
Definition slice_to {A} (n : Z) (l : list A) : list A :=
  if 0 <=? n then take (Z.to_nat n) l
  else take (Z.to_nat (Z.of_nat (length l) + n)) l.

(** ** channel_resolver.py *)

Module ChannelResolver.
Import Client.

Inductive ResolutionMode : Type := strict | best_effort.

Record ChannelCandidate : Type := {
  candidate_channel_id : string;
  candidate_title : option string;
  candidate_handle : option string
}.

(** [channel_id] is [None] when the backend item carries no usable id. *)
Record ResolvedChannel : Type := {
  channel_id : option string;
  title : option string;
  handle : option string;
  uploads_playlist_id : option string;
  warnings : list string;
  candidates : list ChannelCandidate
}.

Definition _get_str (obj : json) (key : string) : option string :=
  match obj with
  | JDict d => nonempty_str (dict_get d key)
  | _ => None
  end.

Definition _extract_uploads_playlist_id (item : json) : option string :=
  match item with
  | JDict d =>
      match dict_get d "contentDetails" with
      | JDict content =>
          match dict_get content "relatedPlaylists" with
          | JDict related => nonempty_str (dict_get related "uploads")
          | _ => None
          end
      | _ => None
      end
  | _ => None
  end.

(** One turn of the loop over the search items: the candidate the item
    gives, if it is well formed. *)
Definition candidate_of (item : json) : option ChannelCandidate :=
  match item with
  | JDict d =>
      match dict_get d "id" with
      | JDict id_block =>
          match nonempty_str (dict_get id_block "channelId") with
          | Some cid =>
              let snippet := dict_get d "snippet" in
              Some {| candidate_channel_id := cid;
                      candidate_title := _get_str snippet "title";
                      candidate_handle := _get_str snippet "channelTitle" |}
          | None => None
          end
      | _ => None
      end
  | _ => None
  end.

Section WithClient.
Context (urlparse : string -> result UrlParse.ParseResult).
Context {W : Type} (client : IYouTubeClient W).

Definition _resolve_channels_list (filter_params : params)
    (include_uploads_playlist : bool) : M W ResolvedChannel :=
  let part_items := ["snippet"; "id"] in
  let part_items :=
    if include_uploads_playlist then (part_items ++ ["contentDetails"])%list
    else part_items in
  let part := join "," part_items in
  let* data := invoke client channels_list part filter_params in
  match dict_get data "items" with
  | JList [] => raise (ChannelResolutionError "Channel not found")
  | JList (item :: more) =>
      match more with
      | _ :: _ => raise (ChannelResolutionError "Multiple channels matched unexpectedly")
      | [] =>
          let channel_id_ := _get_str item "id" in
          let snippet := match item with JDict d => dict_get d "snippet" | _ => JNull end in
          let title_ := _get_str snippet "title" in
          let handle_ := _get_str snippet "customUrl" in
          let uploads :=
            if include_uploads_playlist then _extract_uploads_playlist_id item
            else None in
          let warnings_ :=
            if include_uploads_playlist
            then match uploads with
                 | None => ["uploadsPlaylistId not available"]
                 | Some _ => []
                 end
            else [] in
          ret {| channel_id := channel_id_; title := title_; handle := handle_;
                 uploads_playlist_id := uploads; warnings := warnings_;
                 candidates := [] |}
      end
  | _ => raise (ChannelResolutionError "Channel not found")
  end.

Definition _resolve_best_effort_query (query : string)
    (include_uploads_playlist : bool) : M W ResolvedChannel :=
  if String.eqb (strip query) ""
  then raise (ChannelResolutionError "Query cannot be empty")
  else
    let* data :=
      invoke client search_list "snippet"
        [("q", Some query); ("type", Some "channel"); ("maxResults", Some "5")] in
    match dict_get data "items" with
    | JList (item :: more) =>
        ret {| channel_id := Some ""; title := None; handle := None;
               uploads_playlist_id := None;
               warnings := ["best_effort_candidates_only"];
               candidates := omap candidate_of (item :: more) |}
    | _ => raise (ChannelResolutionError "No channel candidates found")
    end.

Definition resolve_channel (channel_ref : string) (mode : ResolutionMode)
    (include_uploads_playlist : bool) : M W ResolvedChannel :=
  let* ref := lift (ChannelRef.parse_channel_ref urlparse channel_ref) in
  let* ref :=
    match ChannelRef.kind ref, mode with
    | ChannelRef.custom_url, strict =>
        raise (ChannelResolutionError
          ("Custom channel URLs (/c/...) cannot be resolved deterministically. "
           ++ "Provide @handle or /channel/<id> or /user/<username>."))
    | ChannelRef.custom_url, best_effort =>
        ret {| ChannelRef.kind := ChannelRef.query;
               ChannelRef.value := ChannelRef.value ref;
               ChannelRef.raw := ChannelRef.raw ref |}
    | _, _ => ret ref
    end in
  match ChannelRef.kind ref with
  | ChannelRef.query =>
      match mode with
      | strict =>
          raise (ChannelResolutionError
            "Ambiguous channel reference. Provide @handle, channel URL (/channel/UC...), or /user/<username>.")
      | best_effort =>
          _resolve_best_effort_query (ChannelRef.value ref) include_uploads_playlist
      end
  | ChannelRef.handle =>
      _resolve_channels_list [("forHandle", Some ("@" ++ ChannelRef.value ref))]
        include_uploads_playlist
  | ChannelRef.channel_id =>
      _resolve_channels_list [("id", Some (ChannelRef.value ref))]
        include_uploads_playlist
  | ChannelRef.username =>
      _resolve_channels_list [("forUsername", Some (ChannelRef.value ref))]
        include_uploads_playlist
  | ChannelRef.custom_url =>
      raise (ChannelResolutionError "Unsupported channel ref kind: custom_url")
  end.

End WithClient.
End ChannelResolver.

(** ** inventory_types.py *)

Module InventoryTypes.

Record ChannelVideosPage : Type := {
  items : list json;
  next_page_token : option string;
  quota_estimate : QuotaBudgeter.QuotaEstimate;
  truncated : bool;
  applied_max_videos : Z
}.

(** The [part] selector of the detail fetch, by [parts_level]. *)
Definition videos_part (parts_level : string) : string :=
  if String.eqb parts_level "basic"
  then "snippet,statistics,contentDetails"
  else "snippet,statistics,contentDetails,liveStreamingDetails,status".

(** [{..., "pageToken": page_token}] when the token is truthy. *)
Definition with_page_token (ps : Client.params) (page_token : option string)
    : Client.params :=
  if truthy page_token then (ps ++ [("pageToken", page_token)])%list else ps.

(** [items if isinstance(items, list) else []] *)
Definition list_or_empty (v : json) : list json :=
  match v with
  | JList l => l
  | _ => []
  end.

End InventoryTypes.

(** ** channel_inventory.py: the uploads_playlist strategy *)

Module ChannelInventory.
Import Client InventoryTypes.
Import VideoClassification.

Fixpoint _filter_videos (videos : list json) (include_shorts include_live : bool)
    : result (list json) :=
  match videos with
  | [] => Ok []
  | v :: vs =>
      rbind (if negb include_shorts then is_short v else Ok false) (fun short =>
      if short then _filter_videos vs include_shorts include_live
      else
        rbind (if negb include_live then is_live v else Ok false) (fun live =>
        if live then _filter_videos vs include_shorts include_live
        else
          rbind (_filter_videos vs include_shorts include_live) (fun out =>
          Ok (v :: out))))
  end.

Section WithClient.
Context (urlparse : string -> result UrlParse.ParseResult).
Context {W : Type} (client : IYouTubeClient W).

Definition list_channel_videos_page (channel_ref : string) (max_videos : Z)
    (page_token : option string) (include_shorts include_live : bool)
    (parts_level : string) (budget : QuotaBudgeter.QuotaBudget)
    : M W ChannelVideosPage :=
  let* quota_est :=
    lift (QuotaBudgeter.estimate_channel_videos_quota
            "uploads_playlist" max_videos budget true) in
  let* resolved :=
    ChannelResolver.resolve_channel urlparse client channel_ref
      ChannelResolver.strict true in
  let uploads := ChannelResolver.uploads_playlist_id resolved in
  if negb (truthy uploads)
  then raise (ChannelInventoryError "uploadsPlaylistId not available for this channel")
  else
    let playlist_params :=
      with_page_token [("playlistId", uploads); ("maxResults", Some "50")] page_token in
    let* playlist_resp :=
      invoke client playlist_items_list "snippet,contentDetails" playlist_params in
    let video_ids :=
      PlaylistItemsExtract.extract_video_ids (dict_get playlist_resp "items") None in
    let cut := max_videos <? Z.of_nat (length video_ids) in
    let video_ids := if cut then slice_to max_videos video_ids else video_ids in
    let truncated_ := cut in
    match video_ids with
    | [] =>
        ret {| items := []; next_page_token := None; quota_estimate := quota_est;
               truncated := false; applied_max_videos := 0 |}
    | _ :: _ =>
        let* videos_resp :=
          invoke client videos_list (videos_part parts_level)
            [("id", Some (join "," video_ids))] in
        let videos := list_or_empty (dict_get videos_resp "items") in
        let* filtered := lift (_filter_videos videos include_shorts include_live) in
        let next_out := nonempty_str (dict_get playlist_resp "nextPageToken") in
        ret {| items := filtered; next_page_token := next_out;
               quota_estimate := quota_est; truncated := truncated_;
               applied_max_videos := Z.of_nat (length video_ids) |}
    end.

End WithClient.
End ChannelInventory.

(** ** channel_videos_ordering_local.py: the local_sort strategy *)

Module ChannelVideosOrderingLocal.
Import Client InventoryTypes.

(** [ids[i : i + 50] for i in range(0, len(ids), 50)]; [fuel] bounds the
    number of chunks and [length ids] is enough. *)
Fixpoint chunks_of {A} (fuel : nat) (n : nat) (l : list A) : list (list A) :=
  match fuel, l with
  | _, [] => []
  | O, _ => []
  | S fuel', _ => take n l :: chunks_of fuel' n (drop n l)
  end.

Definition batches {A} (l : list A) : list (list A) := chunks_of (length l) 50 l.

(** [[v for v in items if isinstance(v, dict)]] *)
Definition dicts_only (l : list json) : list json :=
  List.filter (fun v => match v with JDict _ => true | _ => false end) l.

Definition key_of (order_by : string) (v : json) : result Z :=
  match v with
  | JDict d => VideoSorting.sort_key d order_by
  | _ => Raise AttributeError
  end.

Section WithClient.
Context (urlparse : string -> result UrlParse.ParseResult).
Context {W : Type} (client : IYouTubeClient W).

(** The [while] loop that gathers identifiers.  [remaining] is
    [budget.max_pages - pages]: the test [pages < budget.max_pages] holds
    exactly while it is positive.  The loop returns [ids] and [token]. *)
Fixpoint collect_ids (remaining : nat) (uploads : option string) (max_videos : Z)
    (ids : list string) (token : option string)
    : M W (list string * option string) :=
  match remaining with
  | O => ret (ids, token)
  | S remaining' =>
      if Z.of_nat (length ids) <? max_videos
      then
        let ps := with_page_token [("playlistId", uploads); ("maxResults", Some "50")] token in
        let* resp := invoke client playlist_items_list "snippet,contentDetails" ps in
        let ids :=
          (ids ++ PlaylistItemsExtract.extract_video_ids (dict_get resp "items") None)%list in
        let token := nonempty_str (dict_get resp "nextPageToken") in
        match token with
        | None => ret (ids, token)
        | Some _ => collect_ids remaining' uploads max_videos ids token
        end
      else ret (ids, token)
  end.

(** The [for] loop that fetches the records, one batch at a time. *)
Fixpoint fetch_batches (part : string) (bs : list (list string)) (videos : list json)
    : M W (list json) :=
  match bs with
  | [] => ret videos
  | batch :: bs' =>
      let* vresp := invoke client videos_list part [("id", Some (join "," batch))] in
      let videos :=
        match dict_get vresp "items" with
        | JList l => (videos ++ dicts_only l)%list
        | _ => videos
        end in
      fetch_batches part bs' videos
  end.

Definition list_channel_videos_local_sorted (channel_ref order_by : string)
    (max_videos : Z) (page_token : option string)
    (include_shorts include_live : bool) (parts_level : string)
    (budget : QuotaBudgeter.QuotaBudget) : M W ChannelVideosPage :=
  if truthy page_token
  then raise (ValueError "page_token is not supported for local_sort")
  else
    let* quota_est :=
      lift (QuotaBudgeter.estimate_channel_videos_quota
              "local_sort" max_videos budget true) in
    let* resolved :=
      ChannelResolver.resolve_channel urlparse client channel_ref
        ChannelResolver.strict true in
    let uploads := ChannelResolver.uploads_playlist_id resolved in
    if negb (truthy uploads)
    then raise (ValueError "uploadsPlaylistId not available")
    else
      let* collected :=
        collect_ids (Z.to_nat (QuotaBudgeter.max_pages budget)) uploads max_videos [] None in
      let '(ids, token) := collected in
      let truncated_ :=
        (Z.of_nat (length ids) >? max_videos)
        || match token with Some _ => true | None => false end in
      let ids := slice_to max_videos ids in
      let* videos := fetch_batches (videos_part parts_level) (batches ids) [] in
      let* filtered := lift (VideoSorting.filter_videos videos include_shorts include_live) in
      let* sorted_items := lift (VideoSorting.sorted_desc (key_of order_by) filtered) in
      ret {| items := sorted_items; next_page_token := None;
             quota_estimate := quota_est; truncated := truncated_;
             applied_max_videos := Z.of_nat (length ids) |}.

End WithClient.
End ChannelVideosOrderingLocal.

(** ** channel_videos_ordering_search.py: the search_api strategy *)

Module ChannelVideosOrderingSearch.
Import Client InventoryTypes.

(** [id.videoId] of one search result, when the shape is as expected. *)
Definition search_item_video_id (it : json) : option string :=
  match it with
  | JDict d =>
      match dict_get d "id" with
      | JDict id_block => nonempty_str (dict_get id_block "videoId")
      | _ => None
      end
  | _ => None
  end.

Fixpoint search_loop (limit : Z) (items : list json) (out : list string) : list string :=
  match items with
  | [] => out
  | it :: rest =>
      if Z.of_nat (length out) >=? limit then out
      else
        match search_item_video_id it with
        | Some vid => search_loop limit rest (out ++ [vid])%list
        | None => search_loop limit rest out
        end
  end.

Definition _extract_search_video_ids (items : json) (limit : Z) : list string :=
  match items with
  | JList l => search_loop limit l []
  | _ => []
  end.

Section WithClient.
Context (urlparse : string -> result UrlParse.ParseResult).
Context {W : Type} (client : IYouTubeClient W).

Definition list_channel_videos_search_api (channel_ref order_by : string)
    (max_videos : Z) (page_token : option string)
    (include_shorts include_live : bool) (parts_level : string)
    (budget : QuotaBudgeter.QuotaBudget) : M W ChannelVideosPage :=
  if negb (UrlParse.mem_str order_by ["date"; "viewCount"])
  then raise (ValueError "search_api supports only order_by in {'date','viewCount'}")
  else
    let* quota_est :=
      lift (QuotaBudgeter.estimate_channel_videos_quota
              "search_api" max_videos budget true) in
    let* resolved :=
      ChannelResolver.resolve_channel urlparse client channel_ref
        ChannelResolver.strict false in
    let ps :=
      with_page_token
        [("channelId", ChannelResolver.channel_id resolved); ("type", Some "video");
         ("order", Some order_by); ("maxResults", Some "50")] page_token in
    let* resp := invoke client search_list "snippet" ps in
    let ids := _extract_search_video_ids (dict_get resp "items") max_videos in
    match ids with
    | [] =>
        ret {| items := []; next_page_token := None; quota_estimate := quota_est;
               truncated := false; applied_max_videos := 0 |}
    | _ :: _ =>
        let* videos_resp :=
          invoke client videos_list (videos_part parts_level)
            [("id", Some (join "," ids))] in
        let videos := list_or_empty (dict_get videos_resp "items") in
        let* filtered := lift (VideoSorting.filter_videos videos include_shorts include_live) in
        let next_out := nonempty_str (dict_get resp "nextPageToken") in
        ret {| items := filtered; next_page_token := next_out;
               quota_estimate := quota_est; truncated := false;
               applied_max_videos := Z.of_nat (length ids) |}
    end.

End WithClient.
End ChannelVideosOrderingSearch.

(** ** channel_search.py: keyword search within a channel *)

Module ChannelSearch.
Import Client InventoryTypes.

Definition search_item_video_id (it : json) : option string :=
  match it with
  | JDict d =>
      match dict_get d "id" with
      | JDict id_block => nonempty_str (dict_get id_block "videoId")
      | _ => None
      end
  | _ => None
  end.

Fixpoint search_loop (limit : Z) (items : list json) (out : list string) : list string :=
  match items with
  | [] => out
  | it :: rest =>
      if Z.of_nat (length out) >=? limit then out
      else
        match search_item_video_id it with
        | Some vid => search_loop limit rest (out ++ [vid])%list
        | None => search_loop limit rest out
        end
  end.

Definition _extract_search_video_ids (items : json) (limit : Z) : list string :=
  match items with
  | JList l => search_loop limit l []
  | _ => []
  end.

Section WithClient.
Context (urlparse : string -> result UrlParse.ParseResult).
Context {W : Type} (client : IYouTubeClient W).

Definition search_channel_videos_page (channel_ref query : string)
    (page_token : option string) (max_videos : Z)
    (include_shorts include_live : bool) (parts_level order : string)
    (budget : QuotaBudgeter.QuotaBudget) : M W ChannelVideosPage :=
  if String.eqb query "" || String.eqb (strip query) ""
  then raise (ValueError "query is required")
  else
    let* quota_est :=
      lift (QuotaBudgeter.estimate_channel_videos_quota
              "search_api" max_videos budget true) in
    let* resolved :=
      ChannelResolver.resolve_channel urlparse client channel_ref
        ChannelResolver.strict false in
    let ps :=
      with_page_token
        [("channelId", ChannelResolver.channel_id resolved); ("type", Some "video");
         ("q", Some query); ("order", Some order); ("maxResults", Some "50")]
        page_token in
    let* resp := invoke client search_list "snippet" ps in
    let ids := _extract_search_video_ids (dict_get resp "items") max_videos in
    match ids with
    | [] =>
        ret {| items := []; next_page_token := None; quota_estimate := quota_est;
               truncated := false; applied_max_videos := 0 |}
    | _ :: _ =>
        let* videos_resp :=
          invoke client videos_list (videos_part parts_level)
            [("id", Some (join "," ids))] in
        let videos := list_or_empty (dict_get videos_resp "items") in
        let* filtered := lift (VideoSorting.filter_videos videos include_shorts include_live) in
        let next_out := nonempty_str (dict_get resp "nextPageToken") in
        ret {| items := filtered; next_page_token := next_out;
               quota_estimate := quota_est; truncated := false;
               applied_max_videos := Z.of_nat (length ids) |}
    end.

End WithClient.
End ChannelSearch.

(** ** channel_videos_ordering.py: the dispatcher *)

Module ChannelVideosOrdering.
Import Client InventoryTypes.

Section WithClient.
Context (urlparse : string -> result UrlParse.ParseResult).
Context {W : Type} (client : IYouTubeClient W).

Definition list_channel_videos (channel_ref strategy order_by : string)
    (max_videos : Z) (page_token : option string)
    (include_shorts include_live : bool) (parts_level : string)
    (budget : QuotaBudgeter.QuotaBudget) : M W ChannelVideosPage :=
  if String.eqb strategy "uploads_playlist"
  then ChannelInventory.list_channel_videos_page urlparse client
         channel_ref max_videos page_token include_shorts include_live
         parts_level budget
  else if String.eqb strategy "local_sort"
  then ChannelVideosOrderingLocal.list_channel_videos_local_sorted urlparse client
         channel_ref order_by max_videos page_token include_shorts include_live
         parts_level budget
  else if String.eqb strategy "search_api"
  then ChannelVideosOrderingSearch.list_channel_videos_search_api urlparse client
         channel_ref order_by max_videos page_token include_shorts include_live
         parts_level budget
  else raise (ValueError ("Unknown strategy: " ++ strategy)).

End WithClient.
End ChannelVideosOrdering.

(** ** playlist_videos.py *)

Module PlaylistVideos.
Import Client.
Import VideoClassification.

Record PlaylistVideosPage : Type := {
  items : list json;
  next_page_token : option string;
  quota_estimate : QuotaBudgeter.QuotaEstimate
}.

Fixpoint _filter_videos (videos : list json) (include_shorts include_live : bool)
    : result (list json) :=
  match videos with
  | [] => Ok []
  | v :: vs =>
      rbind (if negb include_shorts then is_short v else Ok false) (fun short =>
      if short then _filter_videos vs include_shorts include_live
      else
        rbind (if negb include_live then is_live v else Ok false) (fun live =>
        if live then _filter_videos vs include_shorts include_live
        else
          rbind (_filter_videos vs include_shorts include_live) (fun out =>
          Ok (v :: out))))
  end.

(** [QuotaEstimate(estimated_units=units, strategy="uploads_playlist", notes=())] *)
Definition flat_estimate (units : Z) : QuotaBudgeter.QuotaEstimate :=
  {| QuotaBudgeter.estimated_units := units;
     QuotaBudgeter.strategy := "uploads_playlist";
     QuotaBudgeter.notes := [] |}.

Section WithClient.
Context {W : Type} (client : IYouTubeClient W).

Definition list_playlist_videos_page (playlist_id : string)
    (page_token : option string) (max_items : Z)
    (include_shorts include_live : bool) (parts_level : string)
    (budget : QuotaBudgeter.QuotaBudget) : M W PlaylistVideosPage :=
  if String.eqb playlist_id "" || String.eqb (strip playlist_id) ""
  then raise (ValueError "playlist_id is required")
  else if max_items <=? 0
  then raise (ValueError "max_items must be positive")
  else
    let units := QuotaBudgeter.QUOTA_COST_READ + QuotaBudgeter.QUOTA_COST_READ in
    if units >? QuotaBudgeter.max_quota_units budget
    then raise (ValueError "Quota budget too low")
    else
      let ps :=
        InventoryTypes.with_page_token
          [("playlistId", Some playlist_id); ("maxResults", Some "50")] page_token in
      let* resp := invoke client playlist_items_list "snippet,contentDetails" ps in
      let ids :=
        PlaylistItemsExtract.extract_video_ids (dict_get resp "items") (Some max_items) in
      match ids with
      | [] =>
          ret {| items := []; next_page_token := None;
                 quota_estimate := flat_estimate QuotaBudgeter.QUOTA_COST_READ |}
      | _ :: _ =>
          let* videos_resp :=
            invoke client videos_list (InventoryTypes.videos_part parts_level)
              [("id", Some (join "," ids))] in
          let videos := InventoryTypes.list_or_empty (dict_get videos_resp "items") in
          let* filtered := lift (_filter_videos videos include_shorts include_live) in
          let next_out := nonempty_str (dict_get resp "nextPageToken") in
          ret {| items := filtered; next_page_token := next_out;
                 quota_estimate := flat_estimate units |}
      end.

End WithClient.
End PlaylistVideos.

(** ** channel_playlists.py *)

Module ChannelPlaylists.
Import Client.

Record ChannelPlaylistsPage : Type := {
  items : list json;
  next_page_token : option string;
  quota_estimate : QuotaBudgeter.QuotaEstimate
}.

Section WithClient.
Context (urlparse : string -> result UrlParse.ParseResult).
Context {W : Type} (client : IYouTubeClient W).

Definition list_channel_playlists_page (channel_ref : string)
    (page_token : option string) (budget : QuotaBudgeter.QuotaBudget)
    : M W ChannelPlaylistsPage :=
  let* resolved :=
    ChannelResolver.resolve_channel urlparse client channel_ref
      ChannelResolver.strict false in
  let ps :=
    InventoryTypes.with_page_token
      [("channelId", ChannelResolver.channel_id resolved); ("maxResults", Some "50")]
      page_token in
  let est := PlaylistVideos.flat_estimate QuotaBudgeter.QUOTA_COST_READ in
  let* resp := invoke client playlists_list "snippet,contentDetails" ps in
  let items_ := InventoryTypes.list_or_empty (dict_get resp "items") in
  let next_out := nonempty_str (dict_get resp "nextPageToken") in
  ret {| items := items_; next_page_token := next_out; quota_estimate := est |}.

End WithClient.
End ChannelPlaylists.

(** ** video_comments.py *)

Module VideoComments.
Import Client.


Section WithClient.
Context {W : Type} (client : IYouTubeClient W).


End WithClient.
End VideoComments.

(** ** Reference definitions for the statements *)

(** First-seen deduplication, as the specification words it: an
    identifier is kept where it first occurs and dropped afterwards. *)
Fixpoint keep_first (l : list string) : list string :=
  match l with
  | [] => []
  | x :: l' => x :: filter (fun y => y <> x) (keep_first l')
  end.

(** [l] cut at an optional limit. *)
Definition up_to (limit : option Z) (l : list string) : list string :=
  match limit with
  | Some n => take (Z.to_nat n) l
  | None => l
  end.

(** The search the best-effort mode issues for [query]. *)
Definition candidate_search (query : string) : Client.call :=
  {| Client.call_op := Client.search_list; Client.call_part := "snippet";
     Client.call_params := [("q", Some query); ("type", Some "channel");
                     ("maxResults", Some "5")] |}.

(** The unresolved answer of the best-effort mode. *)
Definition unresolved (cs : list ChannelResolver.ChannelCandidate)
    : ChannelResolver.ResolvedChannel :=
  {| ChannelResolver.channel_id := Some ""; ChannelResolver.title := None;
     ChannelResolver.handle := None; ChannelResolver.uploads_playlist_id := None;
     ChannelResolver.warnings := ["best_effort_candidates_only"];
     ChannelResolver.candidates := cs |}.

(** The units a plan costs, before the comparison with the ceiling:
    pages of 50 (at most [max_pages]) at 1 unit, or at 100 units for a
    search over at most 500 videos, and one unit per batch of 50 details. *)
Definition planned_units (strategy : string) (req : Z)
    (budget : QuotaBudgeter.QuotaBudget) (details : bool) : Z :=
  let mv := Z.min req (QuotaBudgeter.max_videos budget) in
  if String.eqb strategy "search_api"
  then
    let capped := Z.min mv 500 in
    Z.min ((capped + 49) / 50) (QuotaBudgeter.max_pages budget) * 100
    + (if details then (capped + 49) / 50 else 0)
  else
    Z.min ((mv + 49) / 50) (QuotaBudgeter.max_pages budget)
    + (if details then (mv + 49) / 50 else 0).

Definition known_strategy (strategy : string) : Prop :=
  strategy = "uploads_playlist" \/ strategy = "local_sort" \/ strategy = "search_api".



Definition is_dict (v : json) : Prop :=
  match v with
  | JDict _ => True
  | _ => False
  end.

(** [b] may follow [a] in a descending order by [key]: both keys are
    defined and the key of [b] is at most the key of [a]. *)
Definition not_above (key : json -> result Z) (a b : json) : Prop :=
  exists ka kb, key a = Ok ka /\ key b = Ok kb /\ kb <= ka.

(** The lookup a reference of kind handle, channel id or username leads
    to: the filter parameter of its kind, and the parts asked for. *)
Definition lookup_call (ref : ChannelRef.ChannelRef) (include_uploads_playlist : bool)
    : Client.call :=
  {| Client.call_op := Client.channels_list;
     Client.call_part :=
       if include_uploads_playlist then "snippet,id,contentDetails" else "snippet,id";
     Client.call_params :=
       match ChannelRef.kind ref with
       | ChannelRef.handle => [("forHandle", Some ("@" ++ ChannelRef.value ref))]
       | ChannelRef.username => [("forUsername", Some (ChannelRef.value ref))]
       | _ => [("id", Some (ChannelRef.value ref))]
       end |}.

Definition direct_kind (k : ChannelRef.ChannelRefKind) : Prop :=
  k = ChannelRef.handle \/ k = ChannelRef.channel_id \/ k = ChannelRef.username.


(** ** The canned clients of the unit tests *)

Module Fixtures.
Import Client.

Definition playlist_item (v : string) : json :=
  JDict [("snippet", JDict [("resourceId", JDict [("videoId", JStr v)])])].

Definition search_item (v : string) : json :=
  JDict [("id", JDict [("videoId", JStr v)])].

Definition channel_item : json :=
  JDict [("id", JStr "UC_x");
         ("snippet", JDict [("title", JStr "T"); ("customUrl", JStr "@Handle")]);
         ("contentDetails",
          JDict [("relatedPlaylists", JDict [("uploads", JStr "UU_x")])])].

Definition video (vid duration : string) : json :=
  JDict [("id", JStr vid);
         ("snippet", JDict [("liveBroadcastContent", JStr "none")]);
         ("contentDetails", JDict [("duration", JStr duration)]);
         ("statistics", JDict [("viewCount", JStr "1")])].

(** [s.split(",")] *)
Fixpoint split_comma (s : string) : list string :=
  match s with
  | EmptyString => [""]
  | String c s' =>
      if Ascii.eqb c ","
      then "" :: split_comma s'
      else match split_comma s' with
           | h :: t => String c h :: t
           | [] => [String c ""]
           end
  end.

Definition param (ps : params) (k : string) : string :=
  match list_find (fun kv => fst kv = k) ps with
  | Some (_, (_, Some v)) => v
  | _ => ""
  end.

Definition answer (d : dict) : unit -> result dict * unit :=
  fun w => (Ok d, w).

Definition not_implemented (part : string) (ps : params)
    : unit -> result dict * unit :=
  fun w => (Raise NotImplementedError, w).

(** The records of the requested ids; [v3] lasts 30 seconds, the others
    5 minutes. *)
Definition videos_answer (part : string) (ps : params) : unit -> result dict * unit :=
  answer
    [("items",
      JList (map (fun vid => video vid (if String.eqb vid "v3" then "PT30S" else "PT5M"))
                 (split_comma (param ps "id"))))].

(** A channel with an uploads playlist whose page holds [items] and is
    followed by the page [NEXT]; a search answers [found]. *)
Definition fake_client (items found : list json) : IYouTubeClient unit := {|
  do_channels_list := fun _ _ => answer [("items", JList [channel_item])];
  do_playlists_list := not_implemented;
  do_playlist_items_list := fun _ _ =>
    answer [("items", JList items); ("nextPageToken", JStr "NEXT")];
  do_videos_list := videos_answer;
  do_search_list := fun _ _ =>
    answer [("items", JList found); ("nextPageToken", JStr "NEXT")];
  do_comment_threads_list := not_implemented
|}.

(** A record that carries a view counter only. *)
Definition counted (vid views : string) : json :=
  JDict [("id", JStr vid); ("statistics", JDict [("viewCount", JStr views)])].

(** A channel as a keyword search returns it. *)
Definition found_channel (cid name : string) : json :=
  JDict [("id", JDict [("channelId", JStr cid)]);
         ("snippet", JDict [("title", JStr name); ("channelTitle", JStr name)])].

Definition candidate (cid name : string) : ChannelResolver.ChannelCandidate :=
  {| ChannelResolver.candidate_channel_id := cid;
     ChannelResolver.candidate_title := Some name;
     ChannelResolver.candidate_handle := Some name |}.

(** A client that also lists playlists and comment threads. *)
Definition tools_client : IYouTubeClient unit := {|
  do_channels_list := fun _ _ => answer [("items", JList [channel_item])];
  do_playlists_list := fun _ _ =>
    answer [("items", JList [JDict [("id", JStr "PL_1")]]); ("nextPageToken", JStr "N")];
  do_playlist_items_list := fun _ _ =>
    answer [("items", JList [playlist_item "v1"; playlist_item "v2"]);
            ("nextPageToken", JStr "N")];
  do_videos_list := videos_answer;
  do_search_list := not_implemented;
  do_comment_threads_list := fun _ _ =>
    answer [("items", JList [JDict [("id", JStr "c1")]; JStr "junk"]);
            ("nextPageToken", JStr "NEXT")]
|}.

Definition budget_1000 : QuotaBudgeter.QuotaBudget :=
  {| QuotaBudgeter.max_videos := 200; QuotaBudgeter.max_pages := 10;
     QuotaBudgeter.max_quota_units := 1000 |}.

Definition start : state unit := {| world := tt; trace := [] |}.

End Fixtures.

(** * Properties *)

(** ** Trimming *)

Section Strip.
Variable p : ascii -> bool.

Lemma rstrip_by_cons_keep c s :
  p c = false -> rstrip_by p (String c s) = String c (rstrip_by p s).
Proof.
  intros Hc. simpl. rewrite Hc. destruct (rstrip_by p s); reflexivity.
Qed.

Lemma rstrip_by_idem s : rstrip_by p (rstrip_by p s) = rstrip_by p s.
Proof.
  induction s as [|c s IH]; [reflexivity|].
  simpl. destruct (rstrip_by p s) as [|a r] eqn:E.
  - destruct (p c) eqn:Hc; [reflexivity|]. simpl. rewrite Hc. reflexivity.
  - change (rstrip_by p (String c (String a r)) = String c (String a r)).
    cbn [rstrip_by]. cbn [rstrip_by] in IH. rewrite IH. reflexivity.
Qed.

Lemma lstrip_by_idem s : lstrip_by p (lstrip_by p s) = lstrip_by p s.
Proof.
  induction s as [|c s IH]; [reflexivity|].
  simpl. destruct (p c) eqn:Hc; [exact IH|]. simpl. rewrite Hc. reflexivity.
Qed.

Lemma lstrip_rstrip_comm s :
  lstrip_by p (rstrip_by p s) = rstrip_by p (lstrip_by p s).
Proof.
  induction s as [|c s IH]; [reflexivity|].
  destruct (p c) eqn:Hc.
  - cbn [lstrip_by rstrip_by]. rewrite Hc, <- IH.
    destruct (rstrip_by p s) as [|a r]; [reflexivity|].
    cbn [lstrip_by]. rewrite Hc. reflexivity.
  - rewrite (rstrip_by_cons_keep _ _ Hc). cbn [lstrip_by]. rewrite Hc.
    symmetry. apply rstrip_by_cons_keep, Hc.
Qed.

Lemma strip_by_idem s : strip_by p (strip_by p s) = strip_by p s.
Proof.
  unfold strip_by.
  rewrite lstrip_rstrip_comm, rstrip_by_idem, lstrip_by_idem.
  reflexivity.
Qed.

Lemma strip_by_rstrip s : strip_by p (rstrip_by p s) = strip_by p s.
Proof.
  unfold strip_by. rewrite lstrip_rstrip_comm, rstrip_by_idem. reflexivity.
Qed.

End Strip.

Lemma strip_at rest : strip (String "@" rest) = String "@" (rstrip_by is_space rest).
Proof.
  unfold strip, strip_by. cbn [lstrip_by].
  change (is_space "@") with false. cbv iota.
  apply rstrip_by_cons_keep. reflexivity.
Qed.

Lemma eqb_empty_false s : s <> "" -> String.eqb s "" = false.
Proof. intros H. apply String.eqb_neq, H. Qed.

(** ** The reference parser *)

Section Parser.
Import ChannelRef.
Variable urlparse : string -> result UrlParse.ParseResult.

(** C8.  An input that starts with '@' is a handle: the value is what
    follows the '@', trimmed, and the raw field is the trimmed input; the
    parse fails with a parse error exactly when that value is empty or
    holds one of '/', '?', '#'. *)
Theorem parse_at_handle (rest : string) :
  parse_channel_ref urlparse (String "@" rest) =
    let h := strip rest in
    if String.eqb h ""
    then Raise (ChannelRefParseError "Handle cannot be empty")
    else if has_separator h
    then Raise (ChannelRefParseError "Handle contains invalid URL separator characters")
    else Ok {| kind := handle; value := h; raw := strip (String "@" rest) |}.
Proof.
  unfold parse_channel_ref, _normalize_raw.
  rewrite strip_at. cbn [_require_non_empty String.eqb rbind].
  change (startswith (String "@" (rstrip_by is_space rest)) "@") with
    (String.prefix "" (rstrip_by is_space rest)).
  replace (String.prefix "" (rstrip_by is_space rest)) with true
    by (destruct (rstrip_by is_space rest); reflexivity).
  cbn [drop_str]. cbv zeta.
  assert (H : strip (rstrip_by is_space rest) = strip rest)
    by apply strip_by_rstrip.
  rewrite !H. unfold _require_non_empty, _reject_separators.
  destruct (String.eqb (strip rest) ""); [reflexivity|].
  cbn [rbind]. destruct (has_separator (strip rest)); reflexivity.
Qed.

Lemma _segment_value k prefix label msg path raw r :
  _segment k prefix label msg path raw = Ok (Some r) ->
  value r <> "" /\ ChannelRef.raw r = raw.
Proof.
  unfold _segment, _require_non_empty, _reject_separators.
  destruct (String.eqb _ "") eqn:E; [discriminate|]. cbn [rbind].
  destruct (has_separator _); [discriminate|]. cbn [rbind].
  intros [= <-]. split; [|reflexivity]. cbn. apply String.eqb_neq, E.
Qed.

Lemma _try_parse_youtube_url_value raw r :
  raw <> "" ->
  _try_parse_youtube_url urlparse raw = Ok (Some r) ->
  value r <> "" /\ ChannelRef.raw r = raw.
Proof.
  intros Hraw. unfold _try_parse_youtube_url.
  destruct (urlparse _) as [parsed|]; [|discriminate]. cbn [rbind].
  destruct (negb _ && negb _); [discriminate|].
  destruct (String.eqb _ "" || negb _); [discriminate|].
  repeat (destruct (startswith _ _); [apply _segment_value|]).
  intros [= <-]. split; [exact Hraw|reflexivity].
Qed.

(** C9.  Whenever the parser returns, the value of the reference is not
    empty and its raw field is the trimmed input, whatever the kind. *)
Theorem parse_channel_ref_invariant (user_input : string) (r : ChannelRef) :
  parse_channel_ref urlparse user_input = Ok r ->
  value r <> "" /\ raw r = strip user_input.
Proof.
  unfold parse_channel_ref, _normalize_raw, _require_non_empty.
  destruct (String.eqb (strip user_input) "") eqn:E; [discriminate|].
  apply String.eqb_neq in E. cbn [rbind].
  destruct (startswith _ "@").
  - destruct (String.eqb (strip (drop_str 1 _)) "") eqn:E'; [discriminate|].
    cbn [rbind]. unfold _reject_separators.
    destruct (has_separator _); [discriminate|]. cbn [rbind].
    intros [= <-]. split; [|reflexivity]. cbn. apply String.eqb_neq, E'.
  - destruct (_looks_like_channel_id _).
    + intros [= <-]. split; [exact E|reflexivity].
    + destruct (_try_parse_youtube_url urlparse _) as [[r'|]|] eqn:T;
        cbn [rbind]; [| |discriminate].
      * intros [= <-]. eapply _try_parse_youtube_url_value; eassumption.
      * intros [= <-]. split; [exact E|reflexivity].
Qed.

(** A reference of kind query carries the trimmed input as its value. *)
Lemma parse_query_value (user_input : string) (r : ChannelRef) :
  parse_channel_ref urlparse user_input = Ok r ->
  kind r = query ->
  value r = strip user_input /\ strip user_input <> "".
Proof.
  unfold parse_channel_ref, _normalize_raw, _require_non_empty.
  destruct (String.eqb (strip user_input) "") eqn:E; [discriminate|].
  apply String.eqb_neq in E. cbn [rbind].
  destruct (startswith _ "@").
  - destruct (String.eqb (strip (drop_str 1 _)) ""); [discriminate|].
    cbn [rbind]. unfold _reject_separators.
    destruct (has_separator _); [discriminate|]. cbn [rbind].
    intros [= <-]. discriminate.
  - destruct (_looks_like_channel_id _).
    + intros [= <-]. discriminate.
    + destruct (_try_parse_youtube_url urlparse _) as [[r'|]|] eqn:T;
        cbn [rbind]; [| |discriminate].
      * intros [= <-] Hk. split; [|exact E].
        revert T. unfold _try_parse_youtube_url.
        destruct (urlparse _) as [parsed|]; [|discriminate]. cbn [rbind].
        destruct (negb _ && negb _); [discriminate|].
        destruct (String.eqb _ "" || negb _); [discriminate|].
        unfold _segment, _require_non_empty, _reject_separators.
        repeat (destruct (startswith _ _);
                [destruct (String.eqb _ ""); [discriminate|]; cbn [rbind];
                 destruct (has_separator _); [discriminate|]; cbn [rbind];
                 intros [= <-]; discriminate|]).
        intros [= <-]. reflexivity.
      * intros [= <-] _. split; [reflexivity|exact E].
Qed.

End Parser.

(** C9 at a channel URL. *)
Lemma parse_channel_ref_invariant_witness :
  ChannelRef.value
    {| ChannelRef.kind := ChannelRef.username; ChannelRef.value := "GoogleDevelopers";
       ChannelRef.raw := "https://www.youtube.com/user/GoogleDevelopers" |} <> ""
  /\ ChannelRef.raw
       {| ChannelRef.kind := ChannelRef.username; ChannelRef.value := "GoogleDevelopers";
          ChannelRef.raw := "https://www.youtube.com/user/GoogleDevelopers" |}
     = strip " https://www.youtube.com/user/GoogleDevelopers ".
Proof.
  apply (parse_channel_ref_invariant UrlParse.urlparse
           " https://www.youtube.com/user/GoogleDevelopers ").
  vm_compute. reflexivity.
Defined.

(** ** The quota budgeter *)

Section Budgeter.
Import QuotaBudgeter.

(** What the estimator returns for the search strategy, when it returns. *)
Lemma estimate_search_api_ok req budget d est :
  estimate_channel_videos_quota "search_api" req budget d = Ok est ->
  let capped := Z.min (Z.min req (max_videos budget)) 500 in
  let pages := Z.min ((capped + 49) / 50) (max_pages budget) in
  0 < req
  /\ estimated_units est = pages * 100 + (if d then (capped + 49) / 50 else 0)
  /\ estimated_units est <= max_quota_units budget
  /\ (In NOTE_SEARCH_CAP (notes est) <-> 500 < Z.min req (max_videos budget)).
Proof.
  unfold estimate_channel_videos_quota.
  destruct (Z.leb_spec req 0) as [|Hreq]; [discriminate|].
  cbn [String.eqb Ascii.eqb Bool.eqb orb].
  change (String.eqb "search_api" "search_api") with true. cbv iota zeta.
  unfold QUOTA_COST_SEARCH, QUOTA_COST_READ, DEFAULT_VIDEOS_LIST_BATCH.
  change (50 - 1) with 49.
  set (mv := Z.min req (max_videos budget)).
  set (capped := Z.min mv 500).
  set (units := _ * 100).
  set (total := if d then _ else _).
  assert (Htotal : total = units + (if d then (capped + 49) / 50 else 0))
    by (subst total; destruct d; ring).
  destruct (Z.gtb_spec total (max_quota_units budget)) as [|Hq]; [discriminate|].
  intros [= <-]. cbn [estimated_units notes].
  split; [exact Hreq|]. split; [exact Htotal|]. split; [exact Hq|].
  assert (Hnote : forall l : list string,
             In NOTE_SEARCH_CAP l <-> False ->
             (In NOTE_SEARCH_CAP (if capped <? mv then (l ++ [NOTE_SEARCH_CAP])%list else l)
              <-> 500 < mv)).
  { intros l Hl. destruct (Z.ltb_spec capped mv) as [Hlt|Hge].
    - rewrite in_app_iff. cbn [In]. subst capped. split; [lia|auto].
    - rewrite Hl. subst capped. split; [tauto|lia]. }
  apply Hnote. clear.
  destruct (req >? max_videos budget); destruct (Z.min _ _ <? _); cbn;
    unfold NOTE_SEARCH_CAP, NOTE_MAX_VIDEOS, NOTE_MAX_PAGES;
    split; try tauto; intros H; repeat destruct H as [H|H]; try discriminate H; try contradiction.
Qed.

(** C3.  For the search strategy the estimator works on at most 500
    videos whatever the budget, notes the cap exactly when it bites,
    counts the pages of the capped number (at most [max_pages]) and
    charges 100 units a page; on a request for 10000 videos under the
    budget (10000, 100, 10000) without details it returns 1000 units and
    the note of the cap. *)
Theorem estimate_search_api_capped :
  (forall req budget est,
      estimate_channel_videos_quota "search_api" req budget false = Ok est ->
      let capped := Z.min (Z.min req (max_videos budget)) 500 in
      capped <= 500
      /\ estimated_units est = 100 * Z.min ((capped + 49) / 50) (max_pages budget)
      /\ (In NOTE_SEARCH_CAP (notes est) <-> 500 < Z.min req (max_videos budget)))
  /\ (exists est,
        estimate_channel_videos_quota "search_api" 10000
          {| max_videos := 10000; max_pages := 100; max_quota_units := 10000 |} false
        = Ok est
        /\ estimated_units est = 1000
        /\ In NOTE_SEARCH_CAP (notes est)).
Proof.
  split.
  - intros req budget est H. apply estimate_search_api_ok in H.
    cbv zeta in *. destruct H as (_ & Hu & _ & Hn).
    split; [lia|]. split; [rewrite Hu; lia|exact Hn].
  - eexists. split; [vm_compute; reflexivity|]. split; [reflexivity|].
    cbn. auto.
Qed.

(** C3 at the request for 10000 videos under the budget (10000, 100, 10000). *)
Lemma estimate_search_api_capped_witness :
  Z.min (Z.min 10000 10000) 500 <= 500
  /\ estimated_units
       {| estimated_units := 1000; strategy := "search_api";
          notes := [NOTE_MAX_PAGES; NOTE_SEARCH_CAP] |}
     = 100 * Z.min ((Z.min (Z.min 10000 10000) 500 + 49) / 50) 100
  /\ (In NOTE_SEARCH_CAP
        (notes {| estimated_units := 1000; strategy := "search_api";
                  notes := [NOTE_MAX_PAGES; NOTE_SEARCH_CAP] |})
      <-> 500 < Z.min 10000 10000).
Proof.
  apply (proj1 estimate_search_api_capped 10000
           {| max_videos := 10000; max_pages := 100; max_quota_units := 10000 |}).
  vm_compute. reflexivity.
Defined.

(** The units the estimator returns, as a function of the request. *)
Lemma estimate_units strategy req budget d est :
  estimate_channel_videos_quota strategy req budget d = Ok est ->
  let mv := Z.min req (max_videos budget) in
  let capped := Z.min mv 500 in
  (strategy = "uploads_playlist" \/ strategy = "local_sort") /\
    estimated_units est =
      Z.min ((mv + 49) / 50) (max_pages budget) + (if d then (mv + 49) / 50 else 0)
  \/ strategy = "search_api" /\
    estimated_units est =
      Z.min ((capped + 49) / 50) (max_pages budget) * 100
      + (if d then (capped + 49) / 50 else 0).
Proof.
  intros H. cbv zeta.
  destruct (String.eqb strategy "search_api") eqn:Es.
  - apply String.eqb_eq in Es. subst strategy. right. split; [reflexivity|].
    apply estimate_search_api_ok in H. cbv zeta in H. apply H.
  - left. revert H. unfold estimate_channel_videos_quota.
    destruct (req <=? 0); [discriminate|]. rewrite Es. cbv zeta.
    unfold QUOTA_COST_READ, DEFAULT_VIDEOS_LIST_BATCH.
    destruct (String.eqb strategy "uploads_playlist" || String.eqb strategy "local_sort") eqn:E;
      [|discriminate].
    destruct (_ >? _); [discriminate|]. intros [= <-]. cbn [estimated_units].
    split.
    + apply orb_true_iff in E. destruct E as [E|E]; apply String.eqb_eq in E; auto.
    + change (50 - 1) with 49. destruct d; ring.
Qed.

(** C5.  For a fixed strategy, budget and detail flag, the estimated units
    do not decrease when the requested number of videos grows. *)
Theorem estimate_monotone strategy budget d (a b : Z) ea eb :
  0 < a -> a <= b ->
  estimate_channel_videos_quota strategy a budget d = Ok ea ->
  estimate_channel_videos_quota strategy b budget d = Ok eb ->
  estimated_units ea <= estimated_units eb.
Proof.
  intros Ha Hab Hea Heb.
  apply estimate_units in Hea. apply estimate_units in Heb. cbv zeta in *.
  assert (Hdiv : forall x y, x <= y -> (x + 49) / 50 <= (y + 49) / 50)
    by (intros x y Hxy; apply Z.div_le_mono; lia).
  pose proof (Hdiv (Z.min a (max_videos budget)) (Z.min b (max_videos budget))
                ltac:(lia)) as H1.
  pose proof (Hdiv (Z.min (Z.min a (max_videos budget)) 500)
                (Z.min (Z.min b (max_videos budget)) 500) ltac:(lia)) as H2.
  destruct Hea as [[Hs ->]|[Hs ->]]; destruct Heb as [[Hs' ->]|[Hs' ->]].
  - destruct d; lia.
  - exfalso. subst strategy. destruct Hs; discriminate.
  - exfalso. subst strategy. destruct Hs'; discriminate.
  - destruct d; lia.
Qed.

(** C5 between 60 and 120 requested videos on the upload listing. *)
Lemma estimate_monotone_witness :
  estimated_units {| estimated_units := 4; strategy := "uploads_playlist"; notes := [] |}
  <= estimated_units {| estimated_units := 6; strategy := "uploads_playlist"; notes := [] |}.
Proof.
  apply (estimate_monotone "uploads_playlist"
           {| max_videos := 200; max_pages := 10; max_quota_units := 1000 |} true 60 120);
    [lia | lia | vm_compute; reflexivity | vm_compute; reflexivity].
Defined.

End Budgeter.

(** ** Identifier extraction *)

Section Extraction.
Import PlaylistItemsExtract.



Lemma not_elem_of_add (seen : gset string) (vid y : string) :
  y ∉ ({[vid]} ∪ seen : gset string) <-> y <> vid /\ y ∉ seen.
Proof. rewrite elem_of_union, elem_of_singleton. tauto. Qed.

Lemma filter_not_seen_cons (seen : gset string) vid (l : list string) :
  filter (fun v => v ∉ seen) (filter (fun y => y <> vid) l)
  = filter (fun v => v ∉ ({[vid]} ∪ seen : gset string)) l.
Proof.
  induction l as [|y l IH]; [reflexivity|].
  rewrite (filter_cons (fun y => y <> vid)).
  destruct (decide (y <> vid)) as [Hy|Hy].
  - rewrite !filter_cons, IH.
    destruct (decide (y ∉ seen)) as [H1|H1];
      destruct (decide (y ∉ {[vid]} ∪ seen)) as [H2|H2];
      try reflexivity; exfalso; rewrite not_elem_of_add in H2; tauto.
  - rewrite filter_cons, IH.
    destruct (decide (y ∉ {[vid]} ∪ seen)) as [H2|H2]; [|reflexivity].
    exfalso. rewrite not_elem_of_add in H2. tauto.
Qed.

Lemma filter_not_seen_mem (seen : gset string) vid (l : list string) :
  vid ∈ seen ->
  filter (fun v => v ∉ seen) (filter (fun y => y <> vid) l)
  = filter (fun v => v ∉ seen) l.
Proof.
  intros Hin. induction l as [|y l IH]; [reflexivity|].
  rewrite (filter_cons (fun y => y <> vid)).
  destruct (decide (y <> vid)) as [Hy|Hy].
  - rewrite !filter_cons, IH. reflexivity.
  - apply dec_stable in Hy. subst y.
    rewrite filter_cons_False by tauto. exact IH.
Qed.

Lemma filter_not_in_empty (l : list string)
    (dec : forall v : string, Decision (v ∉ (∅ : gset string))) :
  @filter _ _ (@list_filter _) (fun v => v ∉ (∅ : gset string)) dec l = l.
Proof.
  induction l as [|x l IH]; [reflexivity|].
  rewrite filter_cons_True by apply not_elem_of_empty. rewrite IH. reflexivity.
Qed.

(** The loop, from any point of its run, without a limit. *)
Lemma extract_loop_unlimited items out seen :
  extract_loop None items out seen
  = (out ++ filter (fun v => v ∉ seen) (keep_first (omap item_video_id items)))%list.
Proof.
  revert out seen. induction items as [|it items IH]; intros out seen.
  - cbn. rewrite app_nil_r. reflexivity.
  - cbn [extract_loop limit_reached omap list_omap].
    destruct (item_video_id it) as [vid|]; [|apply IH].
    cbn [keep_first]. destruct (decide (vid ∈ seen)) as [Hin|Hin].
    + rewrite IH, filter_cons. destruct (decide (vid ∉ seen)); [contradiction|].
      rewrite filter_not_seen_mem by exact Hin. reflexivity.
    + rewrite IH, filter_cons. destruct (decide (vid ∉ seen)); [|contradiction].
      rewrite filter_not_seen_cons, <- app_assoc. reflexivity.
Qed.

(** The loop under a limit stops where the unlimited loop has produced
    [n] identifiers. *)
Lemma extract_loop_limited n items out seen :
  (length out <= Z.to_nat n)%nat ->
  extract_loop (Some n) items out seen
  = take (Z.to_nat n) (extract_loop None items out seen).
Proof.
  revert out seen. induction items as [|it items IH]; intros out seen Hlen.
  - cbn. rewrite take_ge by exact Hlen. reflexivity.
  - cbn [extract_loop limit_reached].
    destruct (Z.geb_spec (Z.of_nat (length out)) n) as [Hge|Hlt].
    + assert (Hn : Z.to_nat n = length out) by lia.
      destruct (item_video_id it) as [vid|];
        [destruct (decide (vid ∈ seen))|];
        rewrite extract_loop_unlimited, Hn, ?length_app, <- ?app_assoc;
        rewrite take_app_length; reflexivity.
    + destruct (item_video_id it) as [vid|]; [|apply IH, Hlen].
      destruct (decide (vid ∈ seen)); [apply IH, Hlen|].
      apply IH. rewrite length_app. cbn. lia.
Qed.

Lemma search_loop_spec (limit : Z) items out :
  (length out <= Z.to_nat limit)%nat ->
  ChannelVideosOrderingSearch.search_loop limit items out
  = take (Z.to_nat limit)
      (out ++ omap ChannelVideosOrderingSearch.search_item_video_id items).
Proof.
  revert out. induction items as [|it items IH]; intros out Hlen.
  - cbn. rewrite app_nil_r, take_ge by exact Hlen. reflexivity.
  - cbn [ChannelVideosOrderingSearch.search_loop omap list_omap].
    destruct (Z.geb_spec (Z.of_nat (length out)) limit) as [Hge|Hlt].
    + assert (Hn : Z.to_nat limit = length out) by lia.
      rewrite Hn, take_app_length. reflexivity.
    + destruct (ChannelVideosOrderingSearch.search_item_video_id it) as [vid|].
      * rewrite IH by (rewrite length_app; cbn; lia).
        rewrite <- app_assoc. reflexivity.
      * apply IH, Hlen.
Qed.



End Extraction.

(** ** The resolver *)

Section Resolver.
Import Client ChannelResolver.
Context (urlparse : string -> result UrlParse.ParseResult).
Context {W : Type} (client : IYouTubeClient W).

Lemma invoke_perform op part ps st :
  invoke client op part ps st
  = (fst (perform client {| call_op := op; call_part := part; call_params := ps |}
            (world st)),
     {| world := snd (perform client
                        {| call_op := op; call_part := part; call_params := ps |}
                        (world st));
        trace := (trace st ++
                  [{| call_op := op; call_part := part; call_params := ps |}])%list |}).
Proof. unfold invoke. destruct (perform _ _ _). reflexivity. Qed.

(** C1, as the code has it.  For an input the parser classifies as a
    query: the strict mode fails with a resolution error and issues no
    call; the best-effort mode issues one search for channels (at most 5
    asked for) and, when the search answers with a list of at least one
    item, returns the empty id, the marker best_effort_candidates_only and
    the candidates of the well-formed items, in order (possibly none, and
    never more than the items answered); when the search answers with no
    item it fails with a resolution error, and a failure of the search
    itself is passed on. *)
Theorem resolve_query (channel_ref : string) (ref : ChannelRef.ChannelRef)
    (inc : bool) (st : state W) :
  ChannelRef.parse_channel_ref urlparse channel_ref = Ok ref ->
  ChannelRef.kind ref = ChannelRef.query ->
  resolve_channel urlparse client channel_ref strict inc st
  = (Raise (ChannelResolutionError
       "Ambiguous channel reference. Provide @handle, channel URL (/channel/UC...), or /user/<username>."),
     st)
  /\ (let c := candidate_search (ChannelRef.value ref) in
      let answer := perform client c (world st) in
      resolve_channel urlparse client channel_ref best_effort inc st
      = (match fst answer with
         | Ok data =>
             match dict_get data "items" with
             | JList (item :: more) => Ok (unresolved (omap candidate_of (item :: more)))
             | _ => Raise (ChannelResolutionError "No channel candidates found")
             end
         | Raise e => Raise e
         end,
         {| world := snd answer; trace := (trace st ++ [c])%list |}))
  /\ (forall items,
        (length (omap candidate_of items) <= length items)%nat).
Proof.
  intros Hparse Hkind.
  destruct (parse_query_value urlparse _ _ Hparse Hkind) as [Hval Hne].
  split; [|split].
  - unfold resolve_channel, bind, lift. rewrite Hparse, Hkind. cbn.
    rewrite Hkind. reflexivity.
  - cbv zeta. unfold resolve_channel, bind, lift. rewrite Hparse, Hkind. cbn [ret].
    rewrite Hkind. unfold _resolve_best_effort_query.
    replace (String.eqb (strip (ChannelRef.value ref)) "") with false.
    + unfold bind. rewrite invoke_perform. unfold candidate_search.
      destruct (fst (perform client _ (world st))) as [data|e]; [|reflexivity].
      destruct (dict_get data "items") as [| | | |[|item more]|]; reflexivity.
    + symmetry. apply eqb_empty_false. rewrite Hval.
      unfold strip. rewrite strip_by_idem. exact Hne.
  - intros items. induction items as [|x l IH]; cbn; [lia|].
    destruct (candidate_of x); cbn; lia.
Qed.

End Resolver.

(** C1 on the name [Acme], against a backend where two channels match. *)
Lemma resolve_query_witness :
  fst (ChannelResolver.resolve_channel UrlParse.urlparse
         (Fixtures.fake_client []
            [Fixtures.found_channel "UC_1" "A"; Fixtures.found_channel "UC_2" "B"])
         "Acme" ChannelResolver.strict true Fixtures.start)
  = Raise (ChannelResolutionError
      "Ambiguous channel reference. Provide @handle, channel URL (/channel/UC...), or /user/<username>.")
  /\ fst (ChannelResolver.resolve_channel UrlParse.urlparse
            (Fixtures.fake_client []
               [Fixtures.found_channel "UC_1" "A"; Fixtures.found_channel "UC_2" "B"])
            "Acme" ChannelResolver.best_effort true Fixtures.start)
     = Ok (unresolved [Fixtures.candidate "UC_1" "A"; Fixtures.candidate "UC_2" "B"]).
Proof.
  destruct (resolve_query UrlParse.urlparse
              (Fixtures.fake_client []
                 [Fixtures.found_channel "UC_1" "A"; Fixtures.found_channel "UC_2" "B"])
              "Acme"
              {| ChannelRef.kind := ChannelRef.query; ChannelRef.value := "Acme";
                 ChannelRef.raw := "Acme" |} true Fixtures.start)
    as (Hs & Hb & _); [vm_compute; reflexivity | reflexivity |].
  split.
  - rewrite Hs. reflexivity.
  - rewrite Hb. vm_compute. reflexivity.
Defined.

(** C1 as stated fails: [Acme] is a query and is not empty, and the
    best-effort resolution fails when the search finds no channel. *)
Lemma resolve_query_best_effort_fails :
  (exists ref,
      ChannelRef.parse_channel_ref UrlParse.urlparse "Acme" = Ok ref
      /\ ChannelRef.kind ref = ChannelRef.query
      /\ ChannelRef.value ref <> "")
  /\ fst (ChannelResolver.resolve_channel UrlParse.urlparse
            (Fixtures.fake_client [] []) "Acme"
            ChannelResolver.best_effort true Fixtures.start)
     = Raise (ChannelResolutionError "No channel candidates found").
Proof.
  split; [|vm_compute; reflexivity].
  eexists. split; [vm_compute; reflexivity|]. split; [reflexivity|discriminate].
Qed.

(** ** The listing pipelines *)

(** The batches of the detail fetch cover the identifiers, in order: the
    bound on the number of batches is never what ends the split. *)
Lemma chunks_of_concat {A} (fuel n : nat) (l : list A) :
  (0 < n)%nat -> (length l <= fuel)%nat ->
  concat (ChannelVideosOrderingLocal.chunks_of fuel n l) = l.
Proof.
  intros Hn. revert l. induction fuel as [|fuel IH]; intros l Hlen.
  - destruct l; [reflexivity|cbn in Hlen; lia].
  - destruct l as [|x l]; [reflexivity|].
    cbn [ChannelVideosOrderingLocal.chunks_of concat].
    rewrite IH.
    + apply take_drop.
    + rewrite length_drop. cbn [length] in *. lia.
Qed.

Lemma batches_concat {A} (l : list A) :
  concat (ChannelVideosOrderingLocal.batches l) = l.
Proof. apply chunks_of_concat; lia. Qed.

Section Pipelines.
Import Client InventoryTypes ChannelResolver.
Context (urlparse : string -> result UrlParse.ParseResult).
Context {W : Type} (client : IYouTubeClient W).

Lemma _resolve_channels_list_trace ps inc st r st' :
  _resolve_channels_list client ps inc st = (Ok r, st') ->
  exists c, call_op c = channels_list /\ trace st' = (trace st ++ [c])%list.
Proof.
  unfold _resolve_channels_list, bind. rewrite invoke_perform.
  destruct (fst (perform client _ (world st))) as [data|e]; [|discriminate].
  destruct (dict_get data "items") as [| | | |[|item [|item' more]]|];
    try discriminate.
  unfold ret. intros [= _ <-]. eexists. split; [|reflexivity]. reflexivity.
Qed.

(** A strict resolution that succeeds has issued one call, a channel lookup. *)
Lemma resolve_strict_trace channel_ref inc st r st' :
  resolve_channel urlparse client channel_ref strict inc st = (Ok r, st') ->
  exists c, call_op c = channels_list /\ trace st' = (trace st ++ [c])%list.
Proof.
  unfold resolve_channel, bind, lift.
  destruct (ChannelRef.parse_channel_ref urlparse channel_ref) as [ref|e];
    [|discriminate].
  destruct (ChannelRef.kind ref) eqn:Hk; cbn [ret raise]; try discriminate;
    rewrite Hk; try discriminate; apply _resolve_channels_list_trace.
Qed.

(** C6.  The three validation errors are raised with the state of the
    client and the trace of calls untouched: a continuation token given
    to local_sort, a sort key other than date and viewCount given to
    search_api, a blank query given to the keyword search. *)
Theorem validation_before_backend
    (channel_ref order_by parts_level query order : string) (max_videos : Z)
    (page_token : option string) (include_shorts include_live : bool)
    (budget : QuotaBudgeter.QuotaBudget) (st : state W) :
  (forall token, page_token = Some token -> token <> "" ->
     ChannelVideosOrderingLocal.list_channel_videos_local_sorted urlparse client
       channel_ref order_by max_videos page_token include_shorts include_live
       parts_level budget st
     = (Raise (ValueError "page_token is not supported for local_sort"), st))
  /\ (order_by <> "date" -> order_by <> "viewCount" ->
      ChannelVideosOrderingSearch.list_channel_videos_search_api urlparse client
        channel_ref order_by max_videos page_token include_shorts include_live
        parts_level budget st
      = (Raise (ValueError "search_api supports only order_by in {'date','viewCount'}"),
         st))
  /\ (strip query = "" ->
      ChannelSearch.search_channel_videos_page urlparse client
        channel_ref query page_token max_videos include_shorts include_live
        parts_level order budget st
      = (Raise (ValueError "query is required"), st)).
Proof.
  split; [|split].
  - intros token -> Hne.
    unfold ChannelVideosOrderingLocal.list_channel_videos_local_sorted, truthy.
    rewrite (eqb_empty_false _ Hne). reflexivity.
  - intros Hd Hv.
    unfold ChannelVideosOrderingSearch.list_channel_videos_search_api.
    cbn [UrlParse.mem_str existsb].
    apply String.eqb_neq in Hd, Hv. rewrite Hd, Hv. reflexivity.
  - intros Hq. unfold ChannelSearch.search_channel_videos_page.
    rewrite Hq, orb_true_r. reflexivity.
Qed.

(** C10.  On the upload listing, when no identifier comes out of the
    page of playlist items, the page returned is empty, without token and
    not truncated, whatever token the backend sent, and the run ends
    right after the call for the playlist items: the calls issued are the
    channel lookup and that call, and no detail fetch. *)
Theorem uploads_playlist_no_identifiers
    (channel_ref parts_level : string) (max_videos : Z)
    (page_token : option string) (include_shorts include_live : bool)
    (budget : QuotaBudgeter.QuotaBudget)
    (st st1 st2 : state W) quota_est resolved resp :
  QuotaBudgeter.estimate_channel_videos_quota "uploads_playlist" max_videos budget true
  = Ok quota_est ->
  resolve_channel urlparse client channel_ref strict true st = (Ok resolved, st1) ->
  truthy (uploads_playlist_id resolved) = true ->
  invoke client playlist_items_list "snippet,contentDetails"
    (with_page_token
       [("playlistId", uploads_playlist_id resolved); ("maxResults", Some "50")]
       page_token) st1
  = (Ok resp, st2) ->
  PlaylistItemsExtract.extract_video_ids (dict_get resp "items") None = [] ->
  ChannelInventory.list_channel_videos_page urlparse client channel_ref max_videos
    page_token include_shorts include_live parts_level budget st
  = (Ok {| items := []; next_page_token := None; quota_estimate := quota_est;
           truncated := false; applied_max_videos := 0 |}, st2)
  /\ exists c1 c2,
       trace st2 = (trace st ++ [c1; c2])%list
       /\ call_op c1 = channels_list /\ call_op c2 = playlist_items_list.
Proof.
  intros Hest Hres Hup Hcall Hids. split.
  - unfold ChannelInventory.list_channel_videos_page, bind, lift.
    rewrite Hest, Hres, Hup. cbn [negb]. rewrite Hcall, Hids.
    destruct (max_videos <? Z.of_nat (length (@nil string))) eqn:E.
    + apply Z.ltb_lt in E. cbn in E.
      unfold QuotaBudgeter.estimate_channel_videos_quota in Hest.
      destruct (Z.leb_spec max_videos 0); [discriminate|lia].
    + reflexivity.
  - destruct (resolve_strict_trace _ _ _ _ _ Hres) as (c1 & Hc1 & Ht1).
    rewrite invoke_perform in Hcall. injection Hcall as _ <-.
    eexists c1, _. cbn [trace]. rewrite Ht1, <- app_assoc.
    split; [reflexivity|]. split; [exact Hc1|reflexivity].
Qed.

(** C4.  On the upload listing, when the page of playlist items gives
    three identifiers and at most two videos are asked for, with shorts
    and live videos included and the backend returning the records of the
    two identifiers kept: the page holds those two records, is marked
    truncated, applies a maximum of two, and carries the token of the
    playlist page as the backend sent it. *)
Theorem uploads_playlist_truncates
    (channel_ref parts_level : string) (page_token : option string)
    (budget : QuotaBudgeter.QuotaBudget)
    (st st1 st2 st3 : state W) quota_est resolved resp vresp
    (a b c : string) (ra rb : json) :
  QuotaBudgeter.estimate_channel_videos_quota "uploads_playlist" 2 budget true
  = Ok quota_est ->
  resolve_channel urlparse client channel_ref strict true st = (Ok resolved, st1) ->
  truthy (uploads_playlist_id resolved) = true ->
  invoke client playlist_items_list "snippet,contentDetails"
    (with_page_token
       [("playlistId", uploads_playlist_id resolved); ("maxResults", Some "50")]
       page_token) st1
  = (Ok resp, st2) ->
  PlaylistItemsExtract.extract_video_ids (dict_get resp "items") None = [a; b; c] ->
  invoke client videos_list (videos_part parts_level)
    [("id", Some (a ++ "," ++ b))] st2
  = (Ok vresp, st3) ->
  dict_get vresp "items" = JList [ra; rb] ->
  exists page,
    ChannelInventory.list_channel_videos_page urlparse client channel_ref 2
      page_token true true parts_level budget st
    = (Ok page, st3)
    /\ items page = [ra; rb]
    /\ length (items page) = 2%nat
    /\ truncated page = true
    /\ applied_max_videos page = 2
    /\ next_page_token page = nonempty_str (dict_get resp "nextPageToken").
Proof.
  intros Hest Hres Hup Hcall Hids Hvcall Hitems.
  eexists. split.
  - unfold ChannelInventory.list_channel_videos_page, bind, lift.
    rewrite Hest, Hres, Hup. cbn [negb]. rewrite Hcall, Hids.
    cbn [length]. unfold slice_to.
    change (2 <? Z.of_nat 3) with true. change (0 <=? 2) with true.
    change (Z.to_nat 2) with 2%nat. cbn [firstn join].
    rewrite Hvcall, Hitems. reflexivity.
  - cbn. repeat split; reflexivity.
Qed.

(** The search strategy never marks a page as truncated. *)
Lemma search_api_truncated_false
    (channel_ref order_by parts_level : string) (max_videos : Z)
    (page_token : option string) (include_shorts include_live : bool)
    (budget : QuotaBudgeter.QuotaBudget) (st st' : state W) page :
  ChannelVideosOrderingSearch.list_channel_videos_search_api urlparse client
    channel_ref order_by max_videos page_token include_shorts include_live
    parts_level budget st
  = (Ok page, st') ->
  truncated page = false.
Proof.
  unfold ChannelVideosOrderingSearch.list_channel_videos_search_api, bind, lift, ret.
  destruct (negb _); [discriminate|].
  destruct (QuotaBudgeter.estimate_channel_videos_quota _ _ _ _); [|discriminate].
  destruct (resolve_channel _ _ _ _ _ _) as [[resolved|] st1]; [|discriminate].
  destruct (invoke client search_list _ _ _) as [[resp|] st2]; [|discriminate].
  destruct (ChannelVideosOrderingSearch._extract_search_video_ids _ _).
  - intros [= <- _]. reflexivity.
  - destruct (invoke client videos_list _ _ _) as [[vresp|] st3]; [|discriminate].
    destruct (VideoSorting.filter_videos _ _ _); [|discriminate].
    intros [= <- _]. reflexivity.
Qed.

End Pipelines.

(** ** The pipelines on the canned clients *)

Section Examples.
Import Client InventoryTypes Fixtures.

(** C6 on the canned client: a token [NEXT] for local_sort, the sort key
    [likeCount] for search_api, a query of two spaces. *)
Lemma validation_before_backend_witness :
  ChannelVideosOrderingLocal.list_channel_videos_local_sorted UrlParse.urlparse
    (fake_client [] []) "@Handle" "viewCount" 10 (Some "NEXT") true true "basic"
    budget_1000 start
  = (Raise (ValueError "page_token is not supported for local_sort"), start)
  /\ ChannelVideosOrderingSearch.list_channel_videos_search_api UrlParse.urlparse
       (fake_client [] []) "@Handle" "likeCount" 10 (Some "NEXT") true true "basic"
       budget_1000 start
     = (Raise (ValueError "search_api supports only order_by in {'date','viewCount'}"),
        start)
  /\ ChannelSearch.search_channel_videos_page UrlParse.urlparse
       (fake_client [] []) "@Handle" "  " (Some "NEXT") 10 true true "basic"
       "relevance" budget_1000 start
     = (Raise (ValueError "query is required"), start).
Proof.
  split; [|split].
  - apply (proj1 (validation_before_backend UrlParse.urlparse (fake_client [] [])
             "@Handle" "viewCount" "basic" "  " "relevance" 10 (Some "NEXT")
             true true budget_1000 start)) with (token := "NEXT");
      [reflexivity|discriminate].
  - apply (proj1 (proj2 (validation_before_backend UrlParse.urlparse
             (fake_client [] []) "@Handle" "likeCount" "basic" "  " "relevance" 10
             (Some "NEXT") true true budget_1000 start))); discriminate.
  - apply (proj2 (proj2 (validation_before_backend UrlParse.urlparse
             (fake_client [] []) "@Handle" "likeCount" "basic" "  " "relevance" 10
             (Some "NEXT") true true budget_1000 start))). reflexivity.
Defined.

(** C10 on a playlist page whose entries are all malformed and that is
    followed by another page. *)
Lemma uploads_playlist_no_identifiers_witness :
  fst (ChannelInventory.list_channel_videos_page UrlParse.urlparse
         (fake_client [JNull; JDict []; playlist_item ""] []) "@Handle" 2 None
         true true "basic" budget_1000 start)
  = Ok {| items := []; next_page_token := None;
          quota_estimate :=
            {| QuotaBudgeter.estimated_units := 2;
               QuotaBudgeter.strategy := "uploads_playlist";
               QuotaBudgeter.notes := [] |};
          truncated := false; applied_max_videos := 0 |}
  /\ map call_op
       (trace (snd (ChannelInventory.list_channel_videos_page UrlParse.urlparse
                      (fake_client [JNull; JDict []; playlist_item ""] []) "@Handle"
                      2 None true true "basic" budget_1000 start)))
     = [channels_list; playlist_items_list].
Proof.
  destruct (uploads_playlist_no_identifiers UrlParse.urlparse
              (fake_client [JNull; JDict []; playlist_item ""] [])
              "@Handle" "basic" 2 None true true budget_1000 start
              {| world := tt;
                 trace := [{| call_op := channels_list;
                              call_part := "snippet,id,contentDetails";
                              call_params := [("forHandle", Some "@Handle")] |}] |}
              {| world := tt;
                 trace := [{| call_op := channels_list;
                              call_part := "snippet,id,contentDetails";
                              call_params := [("forHandle", Some "@Handle")] |};
                           {| call_op := playlist_items_list;
                              call_part := "snippet,contentDetails";
                              call_params := [("playlistId", Some "UU_x");
                                              ("maxResults", Some "50")] |}] |}
              {| QuotaBudgeter.estimated_units := 2;
                 QuotaBudgeter.strategy := "uploads_playlist";
                 QuotaBudgeter.notes := [] |}
              {| ChannelResolver.channel_id := Some "UC_x";
                 ChannelResolver.title := Some "T";
                 ChannelResolver.handle := Some "@Handle";
                 ChannelResolver.uploads_playlist_id := Some "UU_x";
                 ChannelResolver.warnings := [];
                 ChannelResolver.candidates := [] |}
              [("items", JList [JNull; JDict []; playlist_item ""]);
               ("nextPageToken", JStr "NEXT")])
    as (Hrun & _);
    [vm_compute; reflexivity | vm_compute; reflexivity | reflexivity
    | vm_compute; reflexivity | vm_compute; reflexivity |].
  rewrite Hrun. split; reflexivity.
Defined.

(** C4 on the client of the inventory test: the playlist page holds
    [v1], [v2], [v3] and is followed by the page [NEXT]. *)
Lemma uploads_playlist_truncates_witness :
  exists page,
    ChannelInventory.list_channel_videos_page UrlParse.urlparse
      (fake_client [playlist_item "v1"; playlist_item "v2"; playlist_item "v3"] [])
      "@Handle" 2 None true true "basic" budget_1000 start
    = (Ok page,
       {| world := tt;
          trace := [{| call_op := channels_list;
                       call_part := "snippet,id,contentDetails";
                       call_params := [("forHandle", Some "@Handle")] |};
                    {| call_op := playlist_items_list;
                       call_part := "snippet,contentDetails";
                       call_params := [("playlistId", Some "UU_x");
                                       ("maxResults", Some "50")] |};
                    {| call_op := videos_list;
                       call_part := "snippet,statistics,contentDetails";
                       call_params := [("id", Some "v1,v2")] |}] |})
    /\ items page = [video "v1" "PT5M"; video "v2" "PT5M"]
    /\ length (items page) = 2%nat
    /\ truncated page = true
    /\ applied_max_videos page = 2
    /\ next_page_token page = Some "NEXT".
Proof.
  apply (uploads_playlist_truncates UrlParse.urlparse
           (fake_client [playlist_item "v1"; playlist_item "v2"; playlist_item "v3"] [])
           "@Handle" "basic" None budget_1000 start
           {| world := tt;
              trace := [{| call_op := channels_list;
                           call_part := "snippet,id,contentDetails";
                           call_params := [("forHandle", Some "@Handle")] |}] |}
           {| world := tt;
              trace := [{| call_op := channels_list;
                           call_part := "snippet,id,contentDetails";
                           call_params := [("forHandle", Some "@Handle")] |};
                        {| call_op := playlist_items_list;
                           call_part := "snippet,contentDetails";
                           call_params := [("playlistId", Some "UU_x");
                                           ("maxResults", Some "50")] |}] |}
           _
           {| QuotaBudgeter.estimated_units := 2;
              QuotaBudgeter.strategy := "uploads_playlist";
              QuotaBudgeter.notes := [] |}
           {| ChannelResolver.channel_id := Some "UC_x";
              ChannelResolver.title := Some "T";
              ChannelResolver.handle := Some "@Handle";
              ChannelResolver.uploads_playlist_id := Some "UU_x";
              ChannelResolver.warnings := [];
              ChannelResolver.candidates := [] |}
           [("items", JList [playlist_item "v1"; playlist_item "v2"; playlist_item "v3"]);
            ("nextPageToken", JStr "NEXT")]
           [("items", JList [video "v1" "PT5M"; video "v2" "PT5M"])]
           "v1" "v2" "v3");
    vm_compute; reflexivity.
Defined.

(** C2 at the failing input.  The search answers with three videos and
    two are asked for: the page of the search strategy holds two records
    and applies a maximum of two, yet is not marked truncated; the upload
    listing, on a playlist page with the same three videos, marks it. *)
Theorem search_api_truncation_unreported :
  ChannelVideosOrderingSearch._extract_search_video_ids
    (JList [search_item "v1"; search_item "v2"; search_item "v3"]) 50
  = ["v1"; "v2"; "v3"]
  /\ (exists page st',
        ChannelVideosOrderingSearch.list_channel_videos_search_api UrlParse.urlparse
          (fake_client [] [search_item "v1"; search_item "v2"; search_item "v3"])
          "@Handle" "date" 2 None true true "basic" budget_1000 start
        = (Ok page, st')
        /\ items page = [video "v1" "PT5M"; video "v2" "PT5M"]
        /\ applied_max_videos page = 2
        /\ truncated page = false)
  /\ (exists page st',
        ChannelInventory.list_channel_videos_page UrlParse.urlparse
          (fake_client [playlist_item "v1"; playlist_item "v2"; playlist_item "v3"] [])
          "@Handle" 2 None true true "basic" budget_1000 start
        = (Ok page, st')
        /\ items page = [video "v1" "PT5M"; video "v2" "PT5M"]
        /\ applied_max_videos page = 2
        /\ truncated page = true).
Proof.
  split; [reflexivity|]. split.
  - eexists _, _. split; [vm_compute; reflexivity|]. repeat split; reflexivity.
  - eexists _, _. split; [vm_compute; reflexivity|]. repeat split; reflexivity.
Qed.

End Examples.

(** * Further properties of the code *)

(** ** The reference parser, continued *)

Section ParserMore.
Import ChannelRef.
Context (urlparse : string -> result UrlParse.ParseResult).

(** The parser fails with its own error class only: any other exception
    it lets through was raised by the URL parser it was given. *)
Theorem parse_channel_ref_error_class (user_input : string) (e : exn) :
  parse_channel_ref urlparse user_input = Raise e ->
  (exists msg, e = ChannelRefParseError msg)
  \/ (exists url, urlparse url = Raise e).
Proof.
  unfold parse_channel_ref, _normalize_raw, _require_non_empty.
  destruct (String.eqb (strip user_input) ""); cbn [rbind];
    [intros [= <-]; left; eauto|].
  destruct (startswith _ "@").
  - destruct (String.eqb _ ""); cbn [rbind]; [intros [= <-]; left; eauto|].
    unfold _reject_separators. destruct (has_separator _); cbn [rbind];
      [intros [= <-]; left; eauto|discriminate].
  - destruct (_looks_like_channel_id _); [discriminate|].
    unfold _try_parse_youtube_url.
    destruct (urlparse _) as [parsed|e'] eqn:U; cbn [rbind];
      [clear U|intros [= <-]; right; eauto].
    destruct (negb _ && negb _); [discriminate|].
    destruct (String.eqb _ "" || negb _); [discriminate|].
    unfold _segment, _require_non_empty, _reject_separators.
    repeat (destruct (startswith _ _);
            [destruct (String.eqb _ ""); cbn [rbind];
             [intros [= <-]; left; eauto|];
             destruct (has_separator _); cbn [rbind];
             [intros [= <-]; left; eauto|discriminate]|]).
    discriminate.
Qed.

(** Surrounding whitespace never matters: the trimmed input parses to
    the same result as the input. *)
Theorem parse_channel_ref_trimmed (user_input : string) :
  parse_channel_ref urlparse (strip user_input)
  = parse_channel_ref urlparse user_input.
Proof.
  unfold parse_channel_ref, _normalize_raw.
  replace (strip (strip user_input)) with (strip user_input)
    by (unfold strip; rewrite strip_by_idem; reflexivity).
  reflexivity.
Qed.

Lemma parse_at_eq (rest : string) :
  parse_channel_ref urlparse (String "@" rest) =
    rbind (_require_non_empty (strip rest) "Handle cannot be empty") (fun _ =>
    rbind (_reject_separators (strip rest) "Handle") (fun _ =>
    Ok {| kind := handle; value := strip rest;
          raw := String "@" (rstrip_by is_space rest) |})).
Proof.
  unfold parse_channel_ref, _normalize_raw.
  rewrite strip_at. cbn [_require_non_empty String.eqb rbind].
  change (startswith (String "@" (rstrip_by is_space rest)) "@") with
    (String.prefix "" (rstrip_by is_space rest)).
  replace (String.prefix "" (rstrip_by is_space rest)) with true
    by (destruct (rstrip_by is_space rest); reflexivity).
  cbn [drop_str]. cbv zeta.
  assert (H : strip (rstrip_by is_space rest) = strip rest)
    by apply strip_by_rstrip.
  rewrite !H. reflexivity.
Qed.

(** A handle written with '@' is canonical after one parse: '@' followed
    by the parsed value parses to the same handle, with itself as raw
    text.  (The resolver sends exactly that text to the backend.) *)
Theorem parse_handle_canonical (rest : string) (r : ChannelRef) :
  parse_channel_ref urlparse (String "@" rest) = Ok r ->
  parse_channel_ref urlparse (String "@" (value r))
  = Ok {| kind := handle; value := value r; raw := String "@" (value r) |}.
Proof.
  rewrite parse_at_eq. unfold _require_non_empty, _reject_separators.
  destruct (String.eqb (strip rest) "") eqn:E; [discriminate|]. cbn [rbind].
  destruct (has_separator (strip rest)) eqn:S; [discriminate|]. cbn [rbind].
  intros [= <-]. cbn [value].
  assert (Hs : strip (strip rest) = strip rest)
    by (unfold strip; apply strip_by_idem).
  assert (Hr : rstrip_by is_space (strip rest) = strip rest)
    by (unfold strip, strip_by; apply rstrip_by_idem).
  rewrite parse_at_eq, Hs, Hr.
  unfold _require_non_empty, _reject_separators. rewrite E, S. reflexivity.
Qed.

Lemma _segment_clean k prefix label msg path raw r :
  _segment k prefix label msg path raw = Ok (Some r) ->
  kind r = k /\ has_separator (value r) = false.
Proof.
  unfold _segment, _require_non_empty, _reject_separators.
  destruct (String.eqb _ ""); [discriminate|]. cbn [rbind].
  destruct (has_separator _) eqn:S; [discriminate|]. cbn [rbind].
  intros [= <-]. split; [reflexivity|exact S].
Qed.

(** What the URL route of the parser has established when it returns a
    reference: the URL parser accepted the text (or the text with
    https:// put in front), the scheme is absent, http or https, and the
    host is one of the three YouTube hosts. *)
Lemma _try_parse_youtube_url_host raw r :
  _try_parse_youtube_url urlparse raw = Ok (Some r) ->
  exists url parsed,
    (url = raw \/ url = "https://" ++ raw)
    /\ urlparse url = Ok parsed
    /\ UrlParse.mem_str (UrlParse.scheme parsed) [""; "http"; "https"] = true
    /\ UrlParse.mem_str (lower (UrlParse.netloc parsed)) _YOUTUBE_HOSTS = true.
Proof.
  unfold _try_parse_youtube_url.
  match goal with |- context [urlparse ?u] => set (url := u) end.
  assert (Hurl : url = raw \/ url = "https://" ++ raw)
    by (subst url; destruct (_ || _); auto).
  destruct (urlparse url) as [parsed|] eqn:U; [|discriminate]. cbn [rbind].
  destruct (negb (String.eqb (UrlParse.scheme parsed) "")
            && negb (UrlParse.mem_str (UrlParse.scheme parsed) ["http"; "https"]))
    eqn:Sc; [discriminate|].
  destruct (String.eqb (lower (UrlParse.netloc parsed)) ""
            || negb (UrlParse.mem_str (lower (UrlParse.netloc parsed)) _YOUTUBE_HOSTS))
    eqn:Ho; [discriminate|].
  intros _. exists url, parsed. split; [exact Hurl|]. split; [exact U|].
  apply orb_false_iff in Ho. destruct Ho as [_ Ho]. apply negb_false_iff in Ho.
  split; [|exact Ho].
  cbn [UrlParse.mem_str existsb] in *.
  destruct (String.eqb (UrlParse.scheme parsed) ""); [reflexivity|].
  cbn [negb andb orb] in *. apply negb_false_iff in Sc. exact Sc.
Qed.

(** A handle, a username and a custom URL segment never hold one of the
    separators '/', '?', '#'.  (A raw channel id is not checked: the
    fast path accepts any text that starts with UC, is 16 characters or
    longer and has no space.) *)
Theorem parse_value_separator_free (user_input : string) (r : ChannelRef) :
  parse_channel_ref urlparse user_input = Ok r ->
  kind r = handle \/ kind r = username \/ kind r = custom_url ->
  has_separator (value r) = false.
Proof.
  unfold parse_channel_ref, _normalize_raw, _require_non_empty.
  destruct (String.eqb (strip user_input) ""); [discriminate|]. cbn [rbind].
  destruct (startswith _ "@").
  - destruct (String.eqb _ ""); [discriminate|]. cbn [rbind].
    unfold _reject_separators.
    destruct (has_separator _) eqn:S; [discriminate|]. cbn [rbind].
    intros [= <-] _. exact S.
  - destruct (_looks_like_channel_id _).
    + intros [= <-] [H|[H|H]]; discriminate H.
    + destruct (_try_parse_youtube_url urlparse _) as [[r'|]|] eqn:T;
        cbn [rbind]; [| |discriminate].
      * intros [= <-]. revert T. unfold _try_parse_youtube_url.
        destruct (urlparse _) as [parsed|]; [|discriminate]. cbn [rbind].
        destruct (negb _ && negb _); [discriminate|].
        destruct (String.eqb _ "" || negb _); [discriminate|].
        repeat (destruct (startswith _ _);
                [intros T _; apply _segment_clean in T; apply T|]).
        intros [= <-] [H|[H|H]]; discriminate H.
      * intros [= <-] [H|[H|H]]; discriminate H.
Qed.

(** A username or a custom URL segment is only ever read off a URL whose
    host is youtube.com, www.youtube.com or m.youtube.com (any letter
    case) and whose scheme is absent, http or https. *)
Theorem parse_url_kinds_need_youtube_host (user_input : string) (r : ChannelRef) :
  parse_channel_ref urlparse user_input = Ok r ->
  kind r = username \/ kind r = custom_url ->
  exists url parsed,
    (url = strip user_input \/ url = "https://" ++ strip user_input)
    /\ urlparse url = Ok parsed
    /\ UrlParse.mem_str (UrlParse.scheme parsed) [""; "http"; "https"] = true
    /\ UrlParse.mem_str (lower (UrlParse.netloc parsed)) _YOUTUBE_HOSTS = true.
Proof.
  unfold parse_channel_ref, _normalize_raw, _require_non_empty.
  destruct (String.eqb (strip user_input) ""); [discriminate|]. cbn [rbind].
  destruct (startswith _ "@").
  - destruct (String.eqb _ ""); [discriminate|]. cbn [rbind].
    unfold _reject_separators.
    destruct (has_separator _); [discriminate|]. cbn [rbind].
    intros [= <-] [H|H]; discriminate H.
  - destruct (_looks_like_channel_id _).
    + intros [= <-] [H|H]; discriminate H.
    + destruct (_try_parse_youtube_url urlparse _) as [[r'|]|] eqn:T;
        cbn [rbind]; [| |discriminate].
      * intros [= <-] _. eapply _try_parse_youtube_url_host, T.
      * intros [= <-] [H|H]; discriminate H.
Qed.

End ParserMore.

Lemma parse_channel_ref_error_class_witness :
  (exists msg, ChannelRefParseError "Handle cannot be empty" = ChannelRefParseError msg)
  \/ (exists url, UrlParse.urlparse url
                  = Raise (ChannelRefParseError "Handle cannot be empty")).
Proof.
  apply (parse_channel_ref_error_class UrlParse.urlparse " @ ").
  vm_compute. reflexivity.
Defined.

Lemma parse_handle_canonical_witness :
  ChannelRef.parse_channel_ref UrlParse.urlparse "@GoogleDevelopers"
  = Ok {| ChannelRef.kind := ChannelRef.handle;
          ChannelRef.value := "GoogleDevelopers";
          ChannelRef.raw := "@GoogleDevelopers" |}.
Proof.
  apply (parse_handle_canonical UrlParse.urlparse " GoogleDevelopers  "
           {| ChannelRef.kind := ChannelRef.handle;
              ChannelRef.value := "GoogleDevelopers";
              ChannelRef.raw := "@ GoogleDevelopers" |}).
  vm_compute. reflexivity.
Defined.

Lemma parse_value_separator_free_witness :
  ChannelRef.has_separator "GoogleDevelopers" = false.
Proof.
  apply (parse_value_separator_free UrlParse.urlparse
           "https://www.youtube.com/c/GoogleDevelopers/"
           {| ChannelRef.kind := ChannelRef.custom_url;
              ChannelRef.value := "GoogleDevelopers";
              ChannelRef.raw := "https://www.youtube.com/c/GoogleDevelopers/" |});
    [vm_compute; reflexivity | right; right; reflexivity].
Defined.

Lemma parse_url_kinds_need_youtube_host_witness :
  exists url parsed,
    (url = strip "https://M.YouTube.com/user/GoogleDevelopers"
     \/ url = "https://" ++ strip "https://M.YouTube.com/user/GoogleDevelopers")
    /\ UrlParse.urlparse url = Ok parsed
    /\ UrlParse.mem_str (UrlParse.scheme parsed) [""; "http"; "https"] = true
    /\ UrlParse.mem_str (lower (UrlParse.netloc parsed)) ChannelRef._YOUTUBE_HOSTS = true.
Proof.
  apply (parse_url_kinds_need_youtube_host UrlParse.urlparse
           "https://M.YouTube.com/user/GoogleDevelopers"
           {| ChannelRef.kind := ChannelRef.username;
              ChannelRef.value := "GoogleDevelopers";
              ChannelRef.raw := "https://M.YouTube.com/user/GoogleDevelopers" |});
    [vm_compute; reflexivity | left; reflexivity].
Defined.

(** ** The quota budgeter, continued *)

Section BudgeterMore.
Import QuotaBudgeter.

Lemma known_strategy_cases strategy :
  known_strategy strategy ->
  String.eqb strategy "search_api" = true
  \/ (String.eqb strategy "search_api" = false
      /\ String.eqb strategy "uploads_playlist" || String.eqb strategy "local_sort" = true).
Proof.
  intros [-> | [-> | ->]]; [right|right|left]; try split; reflexivity.
Qed.

(** The estimator, once the request is positive and the strategy known:
    it compares the planned units with the ceiling. *)
Lemma estimate_decision strategy req budget d :
  0 < req -> known_strategy strategy ->
  (planned_units strategy req budget d <= max_quota_units budget ->
   exists est,
     estimate_channel_videos_quota strategy req budget d = Ok est
     /\ estimated_units est = planned_units strategy req budget d
     /\ QuotaBudgeter.strategy est = strategy)
  /\ (max_quota_units budget < planned_units strategy req budget d ->
      estimate_channel_videos_quota strategy req budget d
      = Raise (exceeded (planned_units strategy req budget d) budget)).
Proof.
  intros Hreq Hk. unfold estimate_channel_videos_quota, planned_units.
  destruct (Z.leb_spec req 0) as [|_]; [lia|]. cbv zeta.
  unfold QUOTA_COST_READ, QUOTA_COST_SEARCH, DEFAULT_VIDEOS_LIST_BATCH.
  change (50 - 1) with 49.
  set (mv := Z.min req (max_videos budget)).
  destruct (known_strategy_cases _ Hk) as [Es|[Es Eu]].
  - apply String.eqb_eq in Es. subst strategy.
    change (String.eqb "search_api" "uploads_playlist" || String.eqb "search_api" "local_sort")
      with false.
    change (String.eqb "search_api" "search_api") with true. cbv iota.
    set (capped := Z.min mv 500).
    set (total := if d then _ + _ * 1 else _).
    assert (Ht : total = Z.min ((capped + 49) / 50) (max_pages budget) * 100
                         + (if d then (capped + 49) / 50 else 0))
      by (subst total; destruct d; ring).
    rewrite <- Ht. destruct (Z.gtb_spec total (max_quota_units budget)).
    + split; [lia|reflexivity].
    + split; [|lia]. intros _. eexists. split; [reflexivity|]. split; reflexivity.
  - rewrite Es, Eu.
    set (total := if d then _ + _ * 1 else _).
    assert (Ht : total = Z.min ((mv + 49) / 50) (max_pages budget)
                         + (if d then (mv + 49) / 50 else 0))
      by (subst total; destruct d; ring).
    rewrite <- Ht. destruct (Z.gtb_spec total (max_quota_units budget)).
    + split; [lia|reflexivity].
    + split; [|lia]. intros _. eexists. split; [reflexivity|]. split; reflexivity.
Qed.

Lemma planned_units_monotone strategy budget d a b :
  a <= b -> planned_units strategy a budget d <= planned_units strategy b budget d.
Proof.
  intros Hab. unfold planned_units. cbv zeta.
  assert (Hdiv : forall x y, x <= y -> (x + 49) / 50 <= (y + 49) / 50)
    by (intros x y Hxy; apply Z.div_le_mono; lia).
  pose proof (Hdiv (Z.min a (max_videos budget)) (Z.min b (max_videos budget))
                ltac:(lia)) as H1.
  pose proof (Hdiv (Z.min (Z.min a (max_videos budget)) 500)
                (Z.min (Z.min b (max_videos budget)) 500) ltac:(lia)) as H2.
  destruct (String.eqb strategy "search_api"); destruct d; lia.
Qed.

Lemma estimate_ok_known strategy req budget d est :
  estimate_channel_videos_quota strategy req budget d = Ok est ->
  0 < req /\ known_strategy strategy.
Proof.
  unfold estimate_channel_videos_quota, known_strategy.
  destruct (Z.leb_spec req 0); [discriminate|]. cbv zeta.
  destruct (String.eqb strategy "uploads_playlist") eqn:E1;
    [apply String.eqb_eq in E1; auto|].
  destruct (String.eqb strategy "local_sort") eqn:E2;
    [apply String.eqb_eq in E2; auto|].
  destruct (String.eqb strategy "search_api") eqn:E3;
    [apply String.eqb_eq in E3; auto|].
  discriminate.
Qed.

Lemma estimate_ok_planned strategy req budget d est :
  estimate_channel_videos_quota strategy req budget d = Ok est ->
  estimated_units est <= max_quota_units budget
  /\ estimated_units est = planned_units strategy req budget d
  /\ QuotaBudgeter.strategy est = strategy
  /\ 0 < req /\ known_strategy strategy.
Proof.
  intros H. destruct (estimate_ok_known _ _ _ _ _ H) as [Hreq Hk].
  destruct (estimate_decision strategy req budget d Hreq Hk) as [Hok Hbad].
  destruct (Z.le_gt_cases (planned_units strategy req budget d) (max_quota_units budget))
    as [Hle|Hgt].
  - destruct (Hok Hle) as (est' & He & Hu & Hs).
    rewrite He in H. injection H as <-. repeat split; try assumption; lia.
  - rewrite (Hbad Hgt) in H. discriminate.
Qed.



(** Acceptance is downward closed: when a request fits the budget, every
    smaller positive request fits it too. *)
Theorem estimate_downward_closed strategy budget d (a b : Z) eb :
  0 < a -> a <= b ->
  estimate_channel_videos_quota strategy b budget d = Ok eb ->
  exists ea, estimate_channel_videos_quota strategy a budget d = Ok ea.
Proof.
  intros Ha Hab Hb.
  destruct (estimate_ok_planned _ _ _ _ _ Hb) as (Hle & Hu & _ & _ & Hk).
  destruct (estimate_decision strategy a budget d Ha Hk) as [Hok _].
  destruct Hok as (ea & He & _); [|eauto].
  pose proof (planned_units_monotone strategy budget d a b Hab). lia.
Qed.

(** Bounds on an estimate that is returned: a search never costs more
    than 1010 units, whatever the budget; under a budget whose video and
    page ceilings are positive an estimate is at least one unit, and
    asking for details never lowers it. *)
Theorem estimate_bounds strategy req budget d est :
  estimate_channel_videos_quota strategy req budget d = Ok est ->
  (strategy = "search_api" -> estimated_units est <= 1010)
  /\ (0 < max_videos budget -> 0 < max_pages budget -> 1 <= estimated_units est)
  /\ (0 < max_videos budget ->
      planned_units strategy req budget false <= planned_units strategy req budget d).
Proof.
  intros H. destruct (estimate_ok_planned _ _ _ _ _ H) as (_ & Hu & _ & Hreq & _).
  rewrite Hu. unfold planned_units. cbv zeta.
  set (mv := Z.min req (max_videos budget)).
  assert (H500 : (Z.min mv 500 + 49) / 50 <= 10)
    by (apply Z.lt_succ_r; apply Z.div_lt_upper_bound; lia).
  assert (Hpos : forall x, 0 < x -> 1 <= (x + 49) / 50)
    by (intros x Hx; apply Z.div_le_lower_bound; lia).
  split; [|split].
  - intros ->. change (String.eqb "search_api" "search_api") with true. cbv iota.
    destruct d; lia.
  - intros Hv Hp.
    pose proof (Hpos mv ltac:(lia)). pose proof (Hpos (Z.min mv 500) ltac:(lia)).
    destruct (String.eqb strategy "search_api"); destruct d; lia.
  - intros Hv.
    pose proof (Hpos mv ltac:(lia)). pose proof (Hpos (Z.min mv 500) ltac:(lia)).
    destruct (String.eqb strategy "search_api"); destruct d; lia.
Qed.

Lemma in_snoc_ne (x y : string) (l : list string) :
  x <> y -> In x (l ++ [y])%list <-> In x l.
Proof.
  intros Hne. rewrite in_app_iff. cbn [In]. split; [|auto].
  intros [H|[H|[]]]; [exact H|]. exfalso. apply Hne. symmetry. exact H.
Qed.

(** The two truncation notes say what was cut: the first is present
    exactly when the request exceeds [max_videos], the second exactly when
    the pages needed for the videos kept exceed [max_pages]. *)
Theorem estimate_notes strategy req budget d est :
  estimate_channel_videos_quota strategy req budget d = Ok est ->
  (In NOTE_MAX_VIDEOS (notes est) <-> max_videos budget < req)
  /\ (In NOTE_MAX_PAGES (notes est)
      <-> max_pages budget < (Z.min req (max_videos budget) + 49) / 50).
Proof.
  unfold estimate_channel_videos_quota.
  destruct (Z.leb_spec req 0); [discriminate|]. cbv zeta.
  set (mv := Z.min req (max_videos budget)).
  set (n1 := if req >? max_videos budget then _ else _).
  set (n2 := if Z.min _ _ <? _ then _ else n1).
  assert (H1 : In NOTE_MAX_VIDEOS n1 <-> max_videos budget < req).
  { subst n1. destruct (Z.gtb_spec req (max_videos budget)); cbn; [|lia].
    split; [lia|auto]. }
  assert (H1' : ~ In NOTE_MAX_PAGES n1).
  { subst n1. destruct (req >? max_videos budget); cbn; [|tauto].
    intros [Hn|[]]. discriminate Hn. }
  assert (H2 : In NOTE_MAX_VIDEOS n2 <-> max_videos budget < req).
  { subst n2. destruct (_ <? _); [|exact H1].
    rewrite in_snoc_ne by discriminate. exact H1. }
  assert (H2' : In NOTE_MAX_PAGES n2 <-> max_pages budget < (mv + 49) / 50).
  { subst n2. destruct (Z.ltb_spec (Z.min ((mv + 49) / 50) (max_pages budget))
                          ((mv + 49) / 50)).
    - rewrite in_app_iff. cbn [In]. split; [lia|auto].
    - split; [intros Hn; contradiction|lia]. }
  destruct (String.eqb strategy "uploads_playlist" || String.eqb strategy "local_sort").
  - destruct (_ >? max_quota_units budget); [discriminate|]. intros [= <-]. cbn [notes]. tauto.
  - destruct (String.eqb strategy "search_api"); [|discriminate].
    destruct (_ >? max_quota_units budget); [discriminate|]. intros [= <-]. cbn [notes].
    destruct (Z.min mv 500 <? mv); [|tauto].
    rewrite !in_snoc_ne by discriminate. tauto.
Qed.



Lemma estimate_downward_closed_witness :
  exists ea,
    estimate_channel_videos_quota "search_api" 60 Fixtures.budget_1000 true = Ok ea.
Proof.
  apply (estimate_downward_closed "search_api" Fixtures.budget_1000 true 60 450
           {| estimated_units := 404; strategy := "search_api";
              notes := [NOTE_MAX_VIDEOS] |});
    [lia | lia | vm_compute; reflexivity].
Defined.

Lemma estimate_bounds_witness :
  ("search_api" = "search_api" -> 1000 <= 1010)
  /\ (0 < 10000 -> 0 < 100 -> 1 <= 1000)
  /\ (0 < 10000 ->
      planned_units "search_api" 10000
        {| max_videos := 10000; max_pages := 100; max_quota_units := 10000 |} false
      <= planned_units "search_api" 10000
           {| max_videos := 10000; max_pages := 100; max_quota_units := 10000 |} false).
Proof.
  apply (estimate_bounds "search_api" 10000
           {| max_videos := 10000; max_pages := 100; max_quota_units := 10000 |} false
           {| estimated_units := 1000; strategy := "search_api";
              notes := [NOTE_MAX_PAGES; NOTE_SEARCH_CAP] |}).
  vm_compute. reflexivity.
Defined.

Lemma estimate_notes_witness :
  (In NOTE_MAX_VIDEOS [NOTE_MAX_VIDEOS] <-> 50 < 1000)
  /\ (In NOTE_MAX_PAGES [NOTE_MAX_VIDEOS] <-> 10 < (Z.min 1000 50 + 49) / 50).
Proof.
  apply (estimate_notes "uploads_playlist" 1000
           {| max_videos := 50; max_pages := 10; max_quota_units := 1000 |} false
           {| estimated_units := 1; strategy := "uploads_playlist";
              notes := [NOTE_MAX_VIDEOS] |}).
  vm_compute. reflexivity.
Defined.

End BudgeterMore.

(** ** Durations *)

Section Durations.
Import VideoClassification.

Lemma take_digits_nonneg s acc n :
  0 <= acc -> 0 <= fst (fst (take_digits s acc n)).
Proof.
  revert acc n. induction s as [|c s IH]; intros acc n Hacc; [exact Hacc|].
  cbn [take_digits]. destruct (is_digit c) eqn:D; [|exact Hacc].
  apply IH. unfold is_digit in D. unfold digit_val.
  apply andb_true_iff in D. destruct D as [D _]. apply Z.leb_le in D. lia.
Qed.

Lemma duration_group_nonneg unit s : 0 <= fst (duration_group unit s).
Proof.
  unfold duration_group.
  pose proof (take_digits_nonneg s 0 O ltac:(lia)) as H.
  destruct (take_digits s 0 O) as [[v [|k]] [|c rest]]; cbn [fst] in *; try lia.
  destruct (Ascii.eqb c unit); cbn [fst]; lia.
Qed.

Lemma parse_duration_ge0 (duration : string) (n : Z) :
  parse_duration_seconds duration = Some n ->
  0 <= n /\ startswith duration "PT" = true.
Proof.
  unfold parse_duration_seconds.
  destruct duration as [|c1 [|c2 s]]; try discriminate;
    [destruct c1 as [[|] [|] [|] [|] [|] [|] [|] [|]]; discriminate|].
  destruct (Ascii.eqb_spec c1 "P") as [->|Hne1];
    [|destruct c1 as [[|] [|] [|] [|] [|] [|] [|] [|]]; try discriminate;
      exfalso; apply Hne1; reflexivity].
  destruct (Ascii.eqb_spec c2 "T") as [->|Hne2];
    [|destruct c2 as [[|] [|] [|] [|] [|] [|] [|] [|]]; try discriminate;
      exfalso; apply Hne2; reflexivity].
  pose proof (duration_group_nonneg "H" s) as Hh.
  destruct (duration_group "H" s) as [h s1].
  pose proof (duration_group_nonneg "M" s1) as Hm.
  destruct (duration_group "M" s1) as [mi s2].
  pose proof (duration_group_nonneg "S" s2) as Hs.
  destruct (duration_group "S" s2) as [sec s3]. cbn [fst] in *.
  destruct (_ || _); [|discriminate].
  destruct ((h <? 0) || (mi <? 0) || (sec <? 0)); [discriminate|].
  intros [= <-]. split; [lia|].
  unfold startswith. cbn. destruct s; reflexivity.
Qed.

(** A duration that parses is a number of seconds that is not negative,
    read off a text that starts with [PT]: the guard against negative
    parts can never fire. *)
Theorem parse_duration_seconds_nonneg (duration : string) (n : Z) :
  parse_duration_seconds duration = Some n ->
  0 <= n /\ startswith duration "PT" = true.
Proof. apply parse_duration_ge0. Qed.

Lemma parse_duration_seconds_nonneg_witness :
  0 <= 3723 /\ startswith "PT1H2M3S" "PT" = true.
Proof.
  apply (parse_duration_seconds_nonneg "PT1H2M3S" 3723). vm_compute. reflexivity.
Defined.











End Durations.

(** ** Filtering and sorting *)

Section Filtering.
Import VideoClassification VideoSorting.













End Filtering.

Section Sorting.
Import VideoSorting.
Context (key : json -> result Z).

Lemma keyed_ok l :
  Forall (fun v => exists k, key v = Ok k) l ->
  exists kvs, keyed key l = Ok kvs /\ map snd kvs = l
              /\ Forall (fun kv => key (snd kv) = Ok (fst kv)) kvs.
Proof.
  induction 1 as [|v vs [k Hk] _ (kvs & IH & Hm & Hf)].
  - exists []. repeat split. constructor.
  - exists ((k, v) :: kvs). cbn [keyed]. rewrite Hk, IH. cbn [rbind map snd].
    rewrite Hm. repeat split. constructor; [exact Hk|exact Hf].
Qed.

Lemma keyed_raise l e :
  keyed key l = Raise e -> exists v, v ∈ l /\ key v = Raise e.
Proof.
  induction l as [|v vs IH]; [discriminate|]. cbn [keyed].
  destruct (key v) as [k|e'] eqn:K; cbn [rbind].
  - destruct (keyed key vs) as [kvs|e'']; cbn [rbind]; [discriminate|].
    intros [= <-]. destruct (IH eq_refl) as (w & Hw & He).
    exists w. rewrite elem_of_cons. auto.
  - intros [= <-]. exists v. rewrite elem_of_cons. auto.
Qed.

Lemma insert_desc_perm x l : insert_desc x l ≡ₚ x :: l.
Proof.
  induction l as [|y l IH]; [reflexivity|]. cbn [insert_desc].
  destruct (fst y >? fst x); [|reflexivity].
  rewrite IH. apply Permutation_swap.
Qed.

Lemma insert_desc_sorted x l :
  StronglySorted (fun a b : Z * json => fst b <= fst a) l ->
  StronglySorted (fun a b : Z * json => fst b <= fst a) (insert_desc x l).
Proof.
  induction 1 as [|y l Hs IH Hy]; cbn [insert_desc].
  - repeat constructor.
  - destruct (Z.gtb_spec (fst y) (fst x)) as [Hgt|Hle].
    + constructor; [exact IH|].
      rewrite insert_desc_perm. constructor; [lia|exact Hy].
    + constructor; [constructor; assumption|].
      constructor; [exact Hle|].
      eapply Forall_impl; [exact Hy|]. cbn. intros z Hz. lia.
Qed.

Lemma insert_desc_head x l :
  match l with [] => True | y :: _ => fst y <= fst x end ->
  insert_desc x l = x :: l.
Proof.
  destruct l as [|y l]; [reflexivity|]. cbn [insert_desc].
  intros H. destruct (Z.gtb_spec (fst y) (fst x)); [lia|reflexivity].
Qed.

Lemma sort_sorted kvs :
  StronglySorted (fun a b : Z * json => fst b <= fst a) kvs ->
  foldr insert_desc [] kvs = kvs.
Proof.
  induction 1 as [|x l Hs IH Hx]; [reflexivity|].
  cbn [foldr]. rewrite IH. apply insert_desc_head.
  destruct l as [|y l]; [exact I|]. inversion Hx; assumption.
Qed.

Lemma sort_spec kvs :
  foldr insert_desc [] kvs ≡ₚ kvs
  /\ StronglySorted (fun a b : Z * json => fst b <= fst a) (foldr insert_desc [] kvs).
Proof.
  induction kvs as [|x l [IHp IHs]]; [split; [reflexivity|constructor]|].
  cbn [foldr]. split.
  - rewrite insert_desc_perm, IHp. reflexivity.
  - apply insert_desc_sorted, IHs.
Qed.

Lemma sorted_keys_lift kvs :
  Forall (fun kv => key (snd kv) = Ok (fst kv)) kvs ->
  StronglySorted (fun a b : Z * json => fst b <= fst a) kvs ->
  StronglySorted (not_above key) (map snd kvs).
Proof.
  intros Hk Hs. induction Hs as [|x l Hs IH Hx]; [constructor|].
  inversion Hk as [|? ? Hkx Hkl]; subst. cbn [map]. constructor; [auto|].
  rewrite Forall_map. rewrite Forall_forall in Hx, Hkl |- *.
  intros y Hy. exists (fst x), (fst y).
  split; [exact Hkx|]. split; [apply Hkl, Hy|apply Hx, Hy].
Qed.

Lemma sorted_keys_lower kvs :
  Forall (fun kv => key (snd kv) = Ok (fst kv)) kvs ->
  StronglySorted (not_above key) (map snd kvs) ->
  StronglySorted (fun a b : Z * json => fst b <= fst a) kvs.
Proof.
  induction kvs as [|x l IH]; [constructor|].
  intros Hk Hs. inversion Hk as [|? ? Hkx Hkl]; subst.
  cbn [map] in Hs. inversion Hs as [|? ? Hs' Hx]; subst.
  constructor; [auto|].
  rewrite Forall_map in Hx. rewrite Forall_forall in Hx, Hkl |- *.
  intros y Hy. destruct (Hx y Hy) as (ka & kb & Ha & Hb & Hle).
  rewrite Hkx in Ha. rewrite (Hkl y Hy) in Hb. congruence.
Qed.

(** The sort of the local strategy, when every record has a key: the
    result is a rearrangement of the input in which no record comes
    before a record of greater key; and an input that is already in such
    an order, ties included, comes back as it is (the sort is stable).
    When the sort fails, it fails with the error of the key of one of
    the records. *)
Theorem sorted_desc_spec (l : list json) :
  (Forall (fun v => exists k, key v = Ok k) l ->
   exists out,
     sorted_desc key l = Ok out
     /\ out ≡ₚ l
     /\ StronglySorted (not_above key) out
     /\ (StronglySorted (not_above key) l -> out = l))
  /\ (forall e, sorted_desc key l = Raise e -> exists v, v ∈ l /\ key v = Raise e).
Proof.
  split.
  - intros Hall. destruct (keyed_ok l Hall) as (kvs & Hk & Hm & Hf).
    unfold sorted_desc. rewrite Hk. cbn [rbind]. eexists. split; [reflexivity|].
    destruct (sort_spec kvs) as [Hp Hs]. split; [|split].
    + rewrite Hp, Hm. reflexivity.
    + apply sorted_keys_lift; [|exact Hs].
      rewrite <- Hp in Hf. exact Hf.
    + intros Hl. rewrite sort_sorted; [exact Hm|].
      apply sorted_keys_lower; [exact Hf|]. rewrite Hm. exact Hl.
  - intros e. unfold sorted_desc.
    destruct (keyed key l) as [kvs|e'] eqn:K; cbn [rbind]; [discriminate|].
    intros [= <-]. apply keyed_raise, K.
Qed.

End Sorting.

Lemma sorted_desc_spec_witness :
  exists out,
    VideoSorting.sorted_desc (ChannelVideosOrderingLocal.key_of "viewCount")
      [Fixtures.counted "a" "7"; Fixtures.counted "b" "1_000"; Fixtures.counted "c" "7"]
    = Ok out
    /\ out ≡ₚ [Fixtures.counted "a" "7"; Fixtures.counted "b" "1_000";
               Fixtures.counted "c" "7"]
    /\ StronglySorted (not_above (ChannelVideosOrderingLocal.key_of "viewCount")) out
    /\ (StronglySorted (not_above (ChannelVideosOrderingLocal.key_of "viewCount"))
          [Fixtures.counted "a" "7"; Fixtures.counted "b" "1_000";
           Fixtures.counted "c" "7"]
        -> out = [Fixtures.counted "a" "7"; Fixtures.counted "b" "1_000";
                  Fixtures.counted "c" "7"]).
Proof.
  apply (proj1 (sorted_desc_spec (ChannelVideosOrderingLocal.key_of "viewCount")
                  [Fixtures.counted "a" "7"; Fixtures.counted "b" "1_000";
                   Fixtures.counted "c" "7"])).
  repeat constructor; eexists; vm_compute; reflexivity.
Defined.

Section SortKey.
Import VideoClassification VideoSorting.








Lemma sort_key_plain video order_by :
  order_by <> "viewCount" -> order_by <> "likeCount" -> order_by <> "commentCount" ->
  exists n, sort_key video order_by = Ok n /\ 0 <= n
            /\ (order_by <> "duration" -> n = 0).
Proof.
  intros H1 H2 H3. unfold sort_key.
  apply String.eqb_neq in H1, H2, H3. rewrite H1, H2, H3.
  destruct (String.eqb_spec order_by "duration") as [->|Hd].
  - destruct (dict_get _ "duration") as [| | |dur| |];
      try (exists 0; repeat split; (lia || congruence)).
    destruct (parse_duration_seconds dur) as [n|] eqn:P;
      [|exists 0; repeat split; (lia || congruence)].
    apply parse_duration_ge0 in P. destruct P as [P _].
    destruct n; [exists 0|eexists|lia]; repeat split; (lia || congruence).
  - exists 0. repeat split; lia.
Qed.

(** For a sort key other than the three counters the key never fails
    and is not negative; other than [duration] as well (so for [date], or
    a misspelt name), every record has key 0. *)
Theorem sort_key_without_counter (video : dict) (order_by : string) :
  order_by <> "viewCount" -> order_by <> "likeCount" -> order_by <> "commentCount" ->
  exists n, sort_key video order_by = Ok n /\ 0 <= n
            /\ (order_by <> "duration" -> n = 0).
Proof. apply sort_key_plain. Qed.

(** Sorting records, all dicts, by a key that is neither a counter nor
    [duration] leaves them in the order they came in: the local strategy
    asked to order by [date] does not order by date. *)
Theorem sorted_desc_without_key (order_by : string) (l : list json) :
  order_by <> "viewCount" -> order_by <> "likeCount" -> order_by <> "commentCount" ->
  order_by <> "duration" ->
  Forall is_dict l ->
  sorted_desc (ChannelVideosOrderingLocal.key_of order_by) l = Ok l.
Proof.
  intros H1 H2 H3 H4 Hl.
  assert (Hk : forall v, is_dict v -> ChannelVideosOrderingLocal.key_of order_by v = Ok 0).
  { intros [| | | | |d] Hd; try contradiction. cbn.
    destruct (sort_key_plain d order_by H1 H2 H3) as (n & Hn & _ & Hz).
    rewrite Hn, (Hz H4). reflexivity. }
  unfold sorted_desc.
  assert (Hkeyed : keyed (ChannelVideosOrderingLocal.key_of order_by) l
                   = Ok (map (fun v => (0, v)) l)).
  { induction Hl as [|v vs Hv Hvs IH]; [reflexivity|].
    cbn [keyed map]. rewrite (Hk v Hv), IH. reflexivity. }
  rewrite Hkeyed. cbn [rbind]. f_equal.
  rewrite sort_sorted.
  - rewrite map_map. cbn. apply map_id.
  - clear. induction l as [|v vs IH]; cbn [map]; constructor; [exact IH|].
    rewrite Forall_map. apply Forall_forall. intros; cbn; lia.
Qed.


Lemma sort_key_without_counter_witness :
  exists n,
    sort_key [("contentDetails", JDict [("duration", JStr "PT1H")])] "duration" = Ok n
    /\ 0 <= n /\ ("duration" <> "duration" -> n = 0).
Proof.
  apply (sort_key_without_counter
           [("contentDetails", JDict [("duration", JStr "PT1H")])] "duration");
    discriminate.
Defined.

Lemma sorted_desc_without_key_witness :
  sorted_desc (ChannelVideosOrderingLocal.key_of "date")
    [Fixtures.counted "a" "1"; Fixtures.counted "b" "9"]
  = Ok [Fixtures.counted "a" "1"; Fixtures.counted "b" "9"].
Proof.
  apply (sorted_desc_without_key "date"
           [Fixtures.counted "a" "1"; Fixtures.counted "b" "9"]);
    try discriminate. repeat constructor.
Defined.

End SortKey.

(** ** Identifier extraction, continued *)

Section ExtractionMore.
Import PlaylistItemsExtract.

Lemma extract_video_ids_eq items limit :
  extract_video_ids (JList items) limit
  = up_to limit (keep_first (omap item_video_id items)).
Proof.
  destruct limit as [n|]; cbn [extract_video_ids up_to].
  - rewrite extract_loop_limited by (cbn; lia).
    rewrite extract_loop_unlimited. cbn [app].
    rewrite filter_not_in_empty. reflexivity.
  - rewrite extract_loop_unlimited. cbn [app].
    rewrite filter_not_in_empty. reflexivity.
Qed.


Lemma keep_first_length l : (length (keep_first l) <= length l)%nat.
Proof.
  induction l as [|x l IH]; cbn [keep_first length]; [lia|].
  pose proof (length_filter (fun y => y <> x) (keep_first l)). lia.
Qed.

Lemma omap_length {A B} (f : A -> option B) (l : list A) :
  (length (omap f l) <= length l)%nat.
Proof.
  induction l as [|x l IH]; cbn; [lia|]. destruct (f x); cbn; lia.
Qed.


(** Extraction never returns more identifiers than the limit it is given
    (none for a limit that is not positive), nor more than there are
    items; this holds for playlist items and for search results. *)
Theorem extraction_bounded (items : list json) (n : Z) :
  (length (extract_video_ids (JList items) (Some n)) <= Z.to_nat n)%nat
  /\ (forall limit,
        (length (extract_video_ids (JList items) limit) <= length items)%nat)
  /\ (length (ChannelVideosOrderingSearch._extract_search_video_ids (JList items) n)
      <= Z.to_nat n)%nat
  /\ (length (ChannelVideosOrderingSearch._extract_search_video_ids (JList items) n)
      <= length items)%nat.
Proof.
  assert (Hs : ChannelVideosOrderingSearch._extract_search_video_ids (JList items) n
               = take (Z.to_nat n)
                   (omap ChannelVideosOrderingSearch.search_item_video_id items)).
  { cbn [ChannelVideosOrderingSearch._extract_search_video_ids].
    rewrite search_loop_spec by (cbn; lia). reflexivity. }
  split; [|split; [|split]].
  - rewrite extract_video_ids_eq. cbn [up_to]. rewrite length_take. lia.
  - intros limit. rewrite extract_video_ids_eq.
    pose proof (keep_first_length (omap item_video_id items)).
    pose proof (omap_length item_video_id items).
    destruct limit; cbn [up_to]; rewrite ?length_take; lia.
  - rewrite Hs, length_take. lia.
  - rewrite Hs, length_take.
    pose proof (omap_length ChannelVideosOrderingSearch.search_item_video_id items).
    lia.
Qed.

End ExtractionMore.

(** ** The resolver, continued *)

Section ResolverMore.
Import Client ChannelResolver.
Context (urlparse : string -> result UrlParse.ParseResult).
Context {W : Type} (client : IYouTubeClient W).

Lemma _resolve_channels_list_calls ps inc st r st' :
  _resolve_channels_list client ps inc st = (r, st') ->
  exists c, call_op c = channels_list /\ trace st' = (trace st ++ [c])%list.
Proof.
  unfold _resolve_channels_list, bind. rewrite invoke_perform.
  destruct (fst (perform client _ (world st))) as [data|e].
  - destruct (dict_get data "items") as [| | | |[|item [|item' more]]|];
      unfold ret, raise; intros [= _ <-]; eexists; (split; [|reflexivity]); reflexivity.
  - intros [= _ <-]. eexists. split; [|reflexivity]. reflexivity.
Qed.

Lemma _resolve_best_effort_query_calls q inc st r st' :
  _resolve_best_effort_query client q inc st = (r, st') ->
  st' = st
  \/ exists c, call_op c = search_list /\ trace st' = (trace st ++ [c])%list.
Proof.
  unfold _resolve_best_effort_query.
  destruct (String.eqb (strip q) ""); [unfold raise; intros [= _ <-]; auto|].
  unfold bind. rewrite invoke_perform.
  destruct (fst (perform client _ (world st))) as [data|e].
  - destruct (dict_get data "items") as [| | | |[|item more]|];
      unfold ret, raise; intros [= _ <-]; right; eexists;
      (split; [|reflexivity]); reflexivity.
  - intros [= _ <-]. right. eexists. split; [|reflexivity]. reflexivity.
Qed.

(** A resolution issues at most one backend call, whatever the input,
    the mode and the outcome: none when the input does not parse, a
    channel lookup or a search otherwise.  The strict mode never
    searches. *)
Theorem resolve_channel_calls (channel_ref : string) (mode : ResolutionMode)
    (inc : bool) (st st' : state W) (r : result ResolvedChannel) :
  resolve_channel urlparse client channel_ref mode inc st = (r, st') ->
  (st' = st
   \/ exists c, trace st' = (trace st ++ [c])%list
                /\ (call_op c = channels_list
                    \/ (call_op c = search_list /\ mode = best_effort)))
  /\ (forall e, ChannelRef.parse_channel_ref urlparse channel_ref = Raise e ->
        r = Raise e /\ st' = st).
Proof.
  unfold resolve_channel, bind, lift.
  destruct (ChannelRef.parse_channel_ref urlparse channel_ref) as [ref|e0].
  - intros H. split; [|discriminate].
    revert H. destruct (ChannelRef.kind ref) eqn:Hk; destruct mode;
      cbn [ret raise]; rewrite ?Hk; cbn [ChannelRef.kind]; unfold raise;
      first
        [ intros [= _ <-]; left; reflexivity
        | intros H; destruct (_resolve_channels_list_calls _ _ _ _ _ H)
            as (c & Hc & Ht); right; exists c; auto
        | intros H; destruct (_resolve_best_effort_query_calls _ _ _ _ _ H)
            as [->|(c & Hc & Ht)]; [left; reflexivity|right; exists c; auto] ].
  - intros [= <- <-]. split; [auto|]. intros e [= <-]. auto.
Qed.

(** The mode only matters for queries and custom URLs: on a handle, a
    channel id or a username the best-effort mode does what the strict
    mode does. *)
Theorem resolve_channel_mode_irrelevant (channel_ref : string)
    (ref : ChannelRef.ChannelRef) (inc : bool) (st : state W) :
  ChannelRef.parse_channel_ref urlparse channel_ref = Ok ref ->
  direct_kind (ChannelRef.kind ref) ->
  resolve_channel urlparse client channel_ref best_effort inc st
  = resolve_channel urlparse client channel_ref strict inc st.
Proof.
  intros Hp Hk. unfold resolve_channel, bind, lift. rewrite Hp.
  destruct Hk as [Hk|[Hk|Hk]]; rewrite Hk; cbn [ret]; rewrite Hk; reflexivity.
Qed.

Lemma _resolve_channels_list_part (inc : bool) :
  join "," (if inc then (["snippet"; "id"] ++ ["contentDetails"])%list
            else ["snippet"; "id"])
  = if inc then "snippet,id,contentDetails" else "snippet,id".
Proof. destruct inc; reflexivity. Qed.

(** The lookup of a handle, a channel id or a username, in either mode:
    one call of the channel listing with the filter of the kind, and the
    error "Channel not found" unless the answer lists at least one item,
    the error "Multiple channels matched unexpectedly" when it lists more
    than one; a failure of the call itself is passed on. *)
Theorem resolve_channel_lookup (channel_ref : string) (ref : ChannelRef.ChannelRef)
    (mode : ResolutionMode) (inc : bool) (st : state W) :
  ChannelRef.parse_channel_ref urlparse channel_ref = Ok ref ->
  direct_kind (ChannelRef.kind ref) ->
  let c := lookup_call ref inc in
  let answer := perform client c (world st) in
  snd (resolve_channel urlparse client channel_ref mode inc st)
  = {| world := snd answer; trace := (trace st ++ [c])%list |}
  /\ match fst answer with
     | Raise e =>
         fst (resolve_channel urlparse client channel_ref mode inc st) = Raise e
     | Ok data =>
         match dict_get data "items" with
         | JList [item] =>
             exists r,
               fst (resolve_channel urlparse client channel_ref mode inc st) = Ok r
               /\ channel_id r = _get_str item "id"
               /\ uploads_playlist_id r
                  = (if inc then _extract_uploads_playlist_id item else None)
         | JList (_ :: _ :: _) =>
             fst (resolve_channel urlparse client channel_ref mode inc st)
             = Raise (ChannelResolutionError "Multiple channels matched unexpectedly")
         | _ =>
             fst (resolve_channel urlparse client channel_ref mode inc st)
             = Raise (ChannelResolutionError "Channel not found")
         end
     end.
Proof.
  intros Hp Hk. cbv zeta.
  assert (Hrun : resolve_channel urlparse client channel_ref mode inc st
                 = _resolve_channels_list client (call_params (lookup_call ref inc)) inc st).
  { unfold resolve_channel, bind, lift. rewrite Hp. unfold lookup_call. cbn [call_params].
    destruct Hk as [Hk|[Hk|Hk]]; rewrite Hk; destruct mode; cbn [ret];
      rewrite Hk; reflexivity. }
  rewrite Hrun. unfold _resolve_channels_list, bind.
  rewrite _resolve_channels_list_part, invoke_perform.
  change {| call_op := channels_list;
            call_part := if inc then "snippet,id,contentDetails" else "snippet,id";
            call_params := call_params (lookup_call ref inc) |}
    with (lookup_call ref inc).
  destruct (fst (perform client (lookup_call ref inc) (world st))) as [data|e];
    [|split; reflexivity].
  destruct (dict_get data "items") as [| | | |[|item [|item' more]]|];
    try (split; reflexivity).
  split; [reflexivity|]. eexists. split; [reflexivity|]. split; reflexivity.
Qed.

(** What a strict resolution returns when it succeeds: no candidates; no
    text field that is present is empty (so the id is never the empty
    string, which is the mark of the unresolved answer); and the warning
    about the uploads playlist exactly when the playlist was asked for
    and is absent. *)
Theorem resolve_strict_shape (channel_ref : string) (inc : bool)
    (st st' : state W) (r : ResolvedChannel) :
  resolve_channel urlparse client channel_ref strict inc st = (Ok r, st') ->
  candidates r = []
  /\ channel_id r <> Some "" /\ title r <> Some "" /\ handle r <> Some ""
  /\ uploads_playlist_id r <> Some ""
  /\ warnings r
     = (if inc then
          match uploads_playlist_id r with
          | None => ["uploadsPlaylistId not available"]
          | Some _ => []
          end
        else [])
  /\ (inc = false -> uploads_playlist_id r = None).
Proof.
  assert (Hne : forall v, nonempty_str v <> Some "").
  { intros [| | |s| |]; cbn; try discriminate.
    destruct (String.eqb_spec s ""); [discriminate|congruence]. }
  assert (Hget : forall o k, _get_str o k <> Some "").
  { intros [| | | | |d] k; cbn; try discriminate. apply Hne. }
  assert (Hup : forall item, _extract_uploads_playlist_id item <> Some "").
  { intros [| | | | |d]; cbn; try discriminate.
    destruct (dict_get d "contentDetails") as [| | | | |cd]; try discriminate.
    destruct (dict_get cd "relatedPlaylists") as [| | | | |rp]; try discriminate.
    apply Hne. }
  assert (Hlist : forall ps,
             _resolve_channels_list client ps inc st = (Ok r, st') ->
             candidates r = []
             /\ channel_id r <> Some "" /\ title r <> Some "" /\ handle r <> Some ""
             /\ uploads_playlist_id r <> Some ""
             /\ warnings r
                = (if inc then
                     match uploads_playlist_id r with
                     | None => ["uploadsPlaylistId not available"]
                     | Some _ => []
                     end
                   else [])
             /\ (inc = false -> uploads_playlist_id r = None)).
  { intros ps. unfold _resolve_channels_list, bind. rewrite invoke_perform.
    destruct (fst (perform client _ (world st))) as [data|e]; [|discriminate].
    destruct (dict_get data "items") as [| | | |[|item [|item' more]]|];
      try discriminate.
    unfold ret. intros [= <- _]. cbn.
    repeat split; try apply Hget.
    - destruct inc; [apply Hup|discriminate].
    - destruct inc; intros; [discriminate|reflexivity]. }
  unfold resolve_channel, bind, lift.
  destruct (ChannelRef.parse_channel_ref urlparse channel_ref) as [ref|e];
    [|discriminate].
  destruct (ChannelRef.kind ref) eqn:Hk; cbn [ret raise]; try discriminate;
    rewrite Hk; try discriminate; apply Hlist.
Qed.

End ResolverMore.

(** ** The listing pipelines, continued *)

Section PipelinesMore.
Import Client InventoryTypes ChannelResolver.
Context (urlparse : string -> result UrlParse.ParseResult).
Context {W : Type} (client : IYouTubeClient W).

(** A budget error is raised before any backend call: when the
    estimator refuses the plan, each of the four pipelines returns its
    error with the state of the client and the trace untouched (for the
    local sort, the search strategy and the keyword search, once their
    own validation has passed). *)
Theorem budget_preflight
    (channel_ref order_by parts_level query order : string) (max_videos : Z)
    (page_token : option string) (include_shorts include_live : bool)
    (budget : QuotaBudgeter.QuotaBudget) (st : state W) (e : exn) :
  (QuotaBudgeter.estimate_channel_videos_quota "uploads_playlist" max_videos budget true
   = Raise e ->
   ChannelInventory.list_channel_videos_page urlparse client channel_ref max_videos
     page_token include_shorts include_live parts_level budget st
   = (Raise e, st))
  /\ (QuotaBudgeter.estimate_channel_videos_quota "local_sort" max_videos budget true
      = Raise e ->
      truthy page_token = false ->
      ChannelVideosOrderingLocal.list_channel_videos_local_sorted urlparse client
        channel_ref order_by max_videos page_token include_shorts include_live
        parts_level budget st
      = (Raise e, st))
  /\ (QuotaBudgeter.estimate_channel_videos_quota "search_api" max_videos budget true
      = Raise e ->
      (order_by = "date" \/ order_by = "viewCount" ->
       ChannelVideosOrderingSearch.list_channel_videos_search_api urlparse client
         channel_ref order_by max_videos page_token include_shorts include_live
         parts_level budget st
       = (Raise e, st))
      /\ (strip query <> "" ->
          ChannelSearch.search_channel_videos_page urlparse client
            channel_ref query page_token max_videos include_shorts include_live
            parts_level order budget st
          = (Raise e, st))).
Proof.
  split; [|split].
  - intros He. unfold ChannelInventory.list_channel_videos_page, bind, lift.
    rewrite He. reflexivity.
  - intros He Ht.
    unfold ChannelVideosOrderingLocal.list_channel_videos_local_sorted, bind, lift.
    rewrite Ht, He. reflexivity.
  - intros He. split.
    + intros Ho.
      unfold ChannelVideosOrderingSearch.list_channel_videos_search_api, bind, lift.
      replace (UrlParse.mem_str order_by ["date"; "viewCount"]) with true
        by (destruct Ho as [-> | ->]; reflexivity).
      cbn [negb]. rewrite He. reflexivity.
    + intros Hq. unfold ChannelSearch.search_channel_videos_page, bind, lift.
      assert (Hq' : query <> "") by (intros ->; apply Hq; reflexivity).
      rewrite (eqb_empty_false _ Hq), (eqb_empty_false _ Hq'). cbn [orb].
      rewrite He. reflexivity.
Qed.

Lemma estimate_ok_positive strategy req budget d est :
  QuotaBudgeter.estimate_channel_videos_quota strategy req budget d = Ok est ->
  0 < req.
Proof.
  unfold QuotaBudgeter.estimate_channel_videos_quota.
  destruct (Z.leb_spec req 0); [discriminate|]. intros _. assumption.
Qed.

Lemma slice_to_length {A} (n : Z) (l : list A) :
  0 <= n -> length (slice_to n l) = Nat.min (Z.to_nat n) (length l).
Proof.
  intros Hn. unfold slice_to. destruct (Z.leb_spec 0 n); [|lia].
  apply length_take.
Qed.

(** What the upload listing returns when it succeeds.  The maximum it
    applied is the number of identifiers it kept: at most [max_videos],
    and equal to it whenever the page is marked truncated.  It issued the
    channel lookup and the call for the playlist items; either no
    identifier was kept and it stopped there with an empty page, or it
    issued one detail fetch. *)
Theorem uploads_playlist_shape
    (channel_ref parts_level : string) (max_videos : Z)
    (page_token : option string) (include_shorts include_live : bool)
    (budget : QuotaBudgeter.QuotaBudget) (st st' : state W) (page : ChannelVideosPage) :
  ChannelInventory.list_channel_videos_page urlparse client channel_ref max_videos
    page_token include_shorts include_live parts_level budget st
  = (Ok page, st') ->
  0 <= applied_max_videos page <= max_videos
  /\ (truncated page = true -> applied_max_videos page = max_videos)
  /\ QuotaBudgeter.estimate_channel_videos_quota "uploads_playlist" max_videos budget true
     = Ok (quota_estimate page)
  /\ exists cs,
       trace st' = (trace st ++ cs)%list
       /\ ((map call_op cs = [channels_list; playlist_items_list]
            /\ applied_max_videos page = 0 /\ items page = []
            /\ next_page_token page = None /\ truncated page = false)
           \/ (map call_op cs = [channels_list; playlist_items_list; videos_list]
               /\ 0 < applied_max_videos page)).
Proof.
  unfold ChannelInventory.list_channel_videos_page, bind, lift.
  destruct (QuotaBudgeter.estimate_channel_videos_quota _ _ _ _) as [est|] eqn:Hest;
    [|discriminate].
  pose proof (estimate_ok_positive _ _ _ _ _ Hest) as Hpos.
  destruct (resolve_channel _ _ _ _ _ _) as [[resolved|] st1] eqn:Hres; [|discriminate].
  destruct (resolve_strict_trace _ _ _ _ _ _ _ Hres) as (c1 & Hc1 & Ht1).
  destruct (negb _); [discriminate|].
  rewrite invoke_perform.
  set (c2 := {| call_op := playlist_items_list; call_part := _; call_params := _ |}).
  destruct (fst (perform client c2 (world st1))) as [resp|]; [|discriminate].
  set (ids := PlaylistItemsExtract.extract_video_ids _ _).
  set (kept := if max_videos <? Z.of_nat (length ids)
               then slice_to max_videos ids else ids).
  assert (Hlen : Z.of_nat (length kept) <= max_videos
                 /\ ((max_videos <? Z.of_nat (length ids)) = true ->
                     Z.of_nat (length kept) = max_videos)).
  { subst kept. destruct (Z.ltb_spec max_videos (Z.of_nat (length ids))).
    - rewrite slice_to_length by lia. split; [lia|]. intros _. lia.
    - split; [lia|discriminate]. }
  destruct kept as [|k0 kept'] eqn:Hkept.
  - unfold ret. intros [= <- <-]. cbn [applied_max_videos truncated quota_estimate
                                       items next_page_token trace].
    split; [lia|]. split; [discriminate|]. split; [reflexivity|].
    exists [c1; c2]. rewrite Ht1, <- app_assoc. split; [reflexivity|].
    left. cbn [map]. rewrite Hc1. repeat split.
  - rewrite invoke_perform.
    set (c3 := {| call_op := videos_list; call_part := _; call_params := _ |}).
    destruct (fst (perform client c3 _)) as [vresp|]; [|discriminate].
    destruct (ChannelInventory._filter_videos _ _ _) as [filtered|]; [|discriminate].
    unfold ret. intros [= <- <-]. cbn [applied_max_videos truncated quota_estimate
                                       items next_page_token trace].
    split; [cbn [length] in *; lia|]. split; [apply Hlen|]. split; [reflexivity|].
    exists [c1; c2; c3]. rewrite Ht1, <- !app_assoc. split; [reflexivity|].
    right. cbn [map]. rewrite Hc1. split; [reflexivity|]. cbn [length]. lia.
Qed.

(** What the search strategy returns when it succeeds: the maximum it
    applied is the number of identifiers it kept, at most [max_videos];
    the page is never marked truncated; it issued the channel lookup
    (without asking for the uploads playlist) and one search, then either
    stopped with an empty page or issued one detail fetch. *)
Theorem search_api_shape
    (channel_ref order_by parts_level : string) (max_videos : Z)
    (page_token : option string) (include_shorts include_live : bool)
    (budget : QuotaBudgeter.QuotaBudget) (st st' : state W) (page : ChannelVideosPage) :
  ChannelVideosOrderingSearch.list_channel_videos_search_api urlparse client
    channel_ref order_by max_videos page_token include_shorts include_live
    parts_level budget st
  = (Ok page, st') ->
  (order_by = "date" \/ order_by = "viewCount")
  /\ 0 <= applied_max_videos page <= max_videos
  /\ truncated page = false
  /\ exists cs,
       trace st' = (trace st ++ cs)%list
       /\ ((map call_op cs = [channels_list; search_list]
            /\ applied_max_videos page = 0 /\ items page = []
            /\ next_page_token page = None)
           \/ (map call_op cs = [channels_list; search_list; videos_list]
               /\ 0 < applied_max_videos page)).
Proof.
  unfold ChannelVideosOrderingSearch.list_channel_videos_search_api, bind, lift.
  destruct (UrlParse.mem_str order_by ["date"; "viewCount"]) eqn:Ho;
    cbn [negb]; [|discriminate].
  assert (Hob : order_by = "date" \/ order_by = "viewCount").
  { cbn [UrlParse.mem_str existsb] in Ho.
    destruct (String.eqb_spec order_by "date"); [auto|].
    destruct (String.eqb_spec order_by "viewCount"); [auto|discriminate]. }
  destruct (QuotaBudgeter.estimate_channel_videos_quota _ _ _ _) as [est|] eqn:Hest;
    [|discriminate].
  pose proof (estimate_ok_positive _ _ _ _ _ Hest) as Hpos.
  destruct (resolve_channel _ _ _ _ _ _) as [[resolved|] st1] eqn:Hres; [|discriminate].
  destruct (resolve_strict_trace _ _ _ _ _ _ _ Hres) as (c1 & Hc1 & Ht1).
  rewrite invoke_perform.
  set (c2 := {| call_op := search_list; call_part := _; call_params := _ |}).
  destruct (fst (perform client c2 (world st1))) as [resp|]; [|discriminate].
  assert (Hlen : (length (ChannelVideosOrderingSearch._extract_search_video_ids
                            (dict_get resp "items") max_videos)
                  <= Z.to_nat max_videos)%nat).
  { destruct (dict_get resp "items") as [| | | |l|]; cbn [length
      ChannelVideosOrderingSearch._extract_search_video_ids]; try lia.
    rewrite search_loop_spec by (cbn; lia). rewrite length_take. lia. }
  destruct (ChannelVideosOrderingSearch._extract_search_video_ids _ _)
    as [|k0 kept'].
  - unfold ret. intros [= <- <-]. cbn [applied_max_videos truncated items
                                       next_page_token trace].
    split; [exact Hob|]. split; [lia|]. split; [reflexivity|].
    exists [c1; c2]. rewrite Ht1, <- app_assoc. split; [reflexivity|].
    left. cbn [map]. rewrite Hc1. repeat split.
  - rewrite invoke_perform.
    set (c3 := {| call_op := videos_list; call_part := _; call_params := _ |}).
    destruct (fst (perform client c3 _)) as [vresp|]; [|discriminate].
    destruct (VideoSorting.filter_videos _ _ _) as [filtered|]; [|discriminate].
    unfold ret. intros [= <- <-]. cbn [applied_max_videos truncated items
                                       next_page_token trace].
    split; [exact Hob|]. split; [cbn [length] in *; lia|]. split; [reflexivity|].
    exists [c1; c2; c3]. rewrite Ht1, <- !app_assoc. split; [reflexivity|].
    right. cbn [map]. rewrite Hc1. split; [reflexivity|]. cbn [length]. lia.
Qed.

End PipelinesMore.

Section LocalSort.
Import Client InventoryTypes ChannelResolver ChannelVideosOrderingLocal.
Context (urlparse : string -> result UrlParse.ParseResult).
Context {W : Type} (client : IYouTubeClient W).

Lemma collect_ids_calls n uploads mv ids token st ids' token' st' :
  collect_ids client n uploads mv ids token st = (Ok (ids', token'), st') ->
  exists ps,
    trace st' = (trace st ++ ps)%list
    /\ Forall (fun c => call_op c = playlist_items_list) ps
    /\ (length ps <= n)%nat.
Proof.
  revert ids token st.
  induction n as [|n IH]; intros ids token st; cbn [collect_ids].
  - unfold ret. intros [= _ _ <-]. exists []. rewrite app_nil_r.
    repeat split; [constructor|cbn; lia].
  - destruct (_ <? _).
    + unfold bind. rewrite invoke_perform.
      set (c := {| call_op := playlist_items_list; call_part := _; call_params := _ |}).
      destruct (fst (perform client c (world st))) as [resp|]; [|discriminate].
      destruct (nonempty_str (dict_get resp "nextPageToken")) as [t|].
      * intros H. destruct (IH _ _ _ H) as (ps & Ht & Hf & Hl). cbn [trace] in Ht.
        exists (c :: ps). rewrite Ht, <- app_assoc.
        repeat split; [constructor; [reflexivity|exact Hf]|cbn; lia].
      * unfold ret. intros [= _ _ <-]. exists [c].
        repeat split; [repeat constructor|cbn; lia].
    + unfold ret. intros [= _ _ <-]. exists []. rewrite app_nil_r.
      repeat split; [constructor|cbn; lia].
Qed.

Lemma dicts_only_dicts l : Forall is_dict (dicts_only l).
Proof.
  unfold dicts_only. apply Forall_forall. intros v Hv.
  apply list_elem_of_In, filter_In in Hv. destruct Hv as [_ Hv].
  destruct v; try discriminate. exact I.
Qed.

Lemma fetch_batches_calls part bs videos st out st' :
  fetch_batches client part bs videos st = (Ok out, st') ->
  exists vs,
    trace st' = (trace st ++ vs)%list
    /\ Forall (fun c => call_op c = videos_list) vs
    /\ length vs = length bs
    /\ (Forall is_dict videos -> Forall is_dict out).
Proof.
  revert videos st. induction bs as [|b bs IH]; intros videos st; cbn [fetch_batches].
  - unfold ret. intros [= <- <-]. exists []. rewrite app_nil_r.
    repeat split; [constructor|auto].
  - unfold bind. rewrite invoke_perform.
    set (c := {| call_op := videos_list; call_part := _; call_params := _ |}).
    destruct (fst (perform client c (world st))) as [vresp|]; [|discriminate].
    intros H. destruct (IH _ _ H) as (vs & Ht & Hf & Hl & Hd). cbn [trace] in Ht.
    exists (c :: vs). rewrite Ht, <- app_assoc.
    repeat split; [constructor; [reflexivity|exact Hf]|cbn; lia|].
    intros Hv. apply Hd. destruct (dict_get vresp "items"); try exact Hv.
    apply Forall_app. split; [exact Hv|apply dicts_only_dicts].
Qed.

Lemma chunks_of_length {A} (fuel : nat) (l : list A) :
  (length l <= fuel)%nat ->
  Z.of_nat (length (chunks_of fuel 50 l)) = (Z.of_nat (length l) + 49) / 50.
Proof.
  revert l. induction fuel as [|fuel IH]; intros l Hl.
  - destruct l; [reflexivity|cbn in Hl; lia].
  - destruct l as [|x l]; [reflexivity|].
    cbn [chunks_of]. change (length (?a :: ?b)) with (S (length b)) at 1.
    rewrite Nat2Z.inj_succ, IH by (rewrite length_drop; cbn [length] in *; lia).
    rewrite length_drop. set (n := length (x :: l)) in *.
    assert (Hn : (0 < n)%nat) by (subst n; cbn; lia).
    destruct (Nat.le_gt_cases 50 n) as [Hge|Hlt].
    + replace (Z.of_nat n + 49) with (Z.of_nat (n - 50) + 49 + 1 * 50) by lia.
      rewrite Z.div_add by lia. lia.
    + replace (n - 50)%nat with O by lia.
      change ((Z.of_nat 0 + 49) / 50) with 0. change (Z.succ 0) with 1.
      apply (Z.div_unique (Z.of_nat n + 49) 50 1 (Z.of_nat n - 1)); lia.
Qed.

Lemma filter_videos_sublist videos s l out :
  VideoSorting.filter_videos videos s l = Ok out -> sublist out videos.
Proof.
  revert out. induction videos as [|v vs IH]; intros out.
  - intros [= <-]. constructor.
  - cbn [VideoSorting.filter_videos].
    destruct (if negb s then _ else _) as [[|]|]; cbn [rbind]; [| |discriminate].
    + intros H. apply sublist_cons, IH, H.
    + destruct (if negb l then _ else _) as [[|]|]; cbn [rbind]; [| |discriminate].
      * intros H. apply sublist_cons, IH, H.
      * destruct (VideoSorting.filter_videos vs s l) as [out'|]; cbn [rbind];
          [|discriminate].
        intros [= <-]. apply sublist_skip, IH. reflexivity.
Qed.

Lemma keyed_inv (key : json -> result Z) l kvs :
  VideoSorting.keyed key l = Ok kvs ->
  map snd kvs = l /\ Forall (fun kv => key (snd kv) = Ok (fst kv)) kvs.
Proof.
  revert kvs. induction l as [|v vs IH]; intros kvs; cbn [VideoSorting.keyed].
  - intros [= <-]. split; [reflexivity|constructor].
  - destruct (key v) as [k|] eqn:K; cbn [rbind]; [|discriminate].
    destruct (VideoSorting.keyed key vs) as [kvs'|]; cbn [rbind]; [|discriminate].
    intros [= <-]. destruct (IH _ eq_refl) as [Hm Hf].
    cbn [map snd]. rewrite Hm. split; [reflexivity|].
    constructor; [exact K|exact Hf].
Qed.

Lemma sorted_desc_ok (key : json -> result Z) l out :
  VideoSorting.sorted_desc key l = Ok out ->
  out ≡ₚ l /\ StronglySorted (not_above key) out.
Proof.
  unfold VideoSorting.sorted_desc.
  destruct (VideoSorting.keyed key l) as [kvs|] eqn:K; cbn [rbind]; [|discriminate].
  intros [= <-]. destruct (keyed_inv _ _ _ K) as [Hm Hf].
  destruct (sort_spec kvs) as [Hp Hs]. split.
  - rewrite Hp, Hm. reflexivity.
  - apply sorted_keys_lift; [|exact Hs]. rewrite <- Hp in Hf. exact Hf.
Qed.

(** What the local sort returns when it succeeds: never a continuation
    token; records that are all dicts, in an order in which no record
    comes before a record of greater key; an applied maximum, the number
    of identifiers kept, of at most [max_videos].  It issued the channel
    lookup, then at most [max_pages] calls for playlist items, then one
    detail fetch per 50 identifiers kept. *)
Theorem local_sort_shape
    (channel_ref order_by parts_level : string) (max_videos : Z)
    (page_token : option string) (include_shorts include_live : bool)
    (budget : QuotaBudgeter.QuotaBudget) (st st' : state W) (page : ChannelVideosPage) :
  list_channel_videos_local_sorted urlparse client channel_ref order_by max_videos
    page_token include_shorts include_live parts_level budget st
  = (Ok page, st') ->
  next_page_token page = None
  /\ 0 <= applied_max_videos page <= max_videos
  /\ Forall is_dict (items page)
  /\ StronglySorted (not_above (key_of order_by)) (items page)
  /\ exists c1 ps vs,
       trace st' = (trace st ++ c1 :: ps ++ vs)%list
       /\ call_op c1 = channels_list
       /\ Forall (fun c => call_op c = playlist_items_list) ps
       /\ (length ps <= Z.to_nat (QuotaBudgeter.max_pages budget))%nat
       /\ Forall (fun c => call_op c = videos_list) vs
       /\ Z.of_nat (length vs) = (applied_max_videos page + 49) / 50.
Proof.
  unfold list_channel_videos_local_sorted, bind, lift.
  destruct (truthy page_token); [discriminate|].
  destruct (QuotaBudgeter.estimate_channel_videos_quota _ _ _ _) as [est|] eqn:Hest;
    [|discriminate].
  pose proof (estimate_ok_positive _ _ _ _ _ Hest) as Hpos.
  destruct (resolve_channel _ _ _ _ _ _) as [[resolved|] st1] eqn:Hres; [|discriminate].
  destruct (resolve_strict_trace _ _ _ _ _ _ _ Hres) as (c1 & Hc1 & Ht1).
  destruct (negb _); [discriminate|].
  destruct (collect_ids client _ _ _ _ _ st1) as [[[ids token]|] st2] eqn:Hcol;
    [|discriminate].
  destruct (collect_ids_calls _ _ _ _ _ _ _ _ _ Hcol) as (ps & Ht2 & Hps & Hlps).
  destruct (fetch_batches client _ _ _ st2) as [[videos|] st3] eqn:Hfetch;
    [|discriminate].
  destruct (fetch_batches_calls _ _ _ _ _ _ Hfetch) as (vs & Ht3 & Hvs & Hlvs & Hdict).
  destruct (VideoSorting.filter_videos _ _ _) as [filtered|] eqn:Hfil; [|discriminate].
  destruct (VideoSorting.sorted_desc _ _) as [sorted_items|] eqn:Hsort; [|discriminate].
  unfold ret. intros [= <- <-].
  cbn [next_page_token applied_max_videos items].
  destruct (sorted_desc_ok _ _ _ Hsort) as [Hperm Hsorted].
  split; [reflexivity|]. split; [rewrite slice_to_length by lia; lia|].
  split.
  { rewrite Hperm. apply Forall_forall. intros v Hv.
    apply filter_videos_sublist in Hfil.
    pose proof (elem_of_sublist _ _ _ Hv Hfil) as Hin.
    clear Hv. revert v Hin. apply Forall_forall. apply Hdict. constructor. }
  split; [exact Hsorted|].
  exists c1, ps, vs. rewrite Ht3, Ht2, Ht1, <- !app_assoc.
  split; [reflexivity|]. split; [exact Hc1|]. split; [exact Hps|].
  split; [exact Hlps|]. split; [exact Hvs|].
  rewrite Hlvs. unfold batches. apply chunks_of_length. lia.
Qed.

End LocalSort.

(** ** The playlist, channel playlist and comment listings *)

Section Listings.
Import Client.
Context (urlparse : string -> result UrlParse.ParseResult).
Context {W : Type} (client : IYouTubeClient W).

(** The playlist listing.  Its three validation errors (a blank playlist
    id, a maximum that is not positive, a ceiling under 2 units) are
    raised with the state and the trace untouched.  When it succeeds, the
    units it reports are the number of calls it issued: one, the call for
    the playlist items, when no identifier came out of the page (the page
    returned is then empty and without token), two when it also fetched
    the details. *)
Theorem list_playlist_videos_outcomes
    (playlist_id parts_level : string) (page_token : option string) (max_items : Z)
    (include_shorts include_live : bool) (budget : QuotaBudgeter.QuotaBudget)
    (st : state W) :
  (strip playlist_id = "" ->
   PlaylistVideos.list_playlist_videos_page client playlist_id page_token max_items
     include_shorts include_live parts_level budget st
   = (Raise (ValueError "playlist_id is required"), st))
  /\ (strip playlist_id <> "" -> max_items <= 0 ->
      PlaylistVideos.list_playlist_videos_page client playlist_id page_token max_items
        include_shorts include_live parts_level budget st
      = (Raise (ValueError "max_items must be positive"), st))
  /\ (strip playlist_id <> "" -> 0 < max_items ->
      QuotaBudgeter.max_quota_units budget < 2 ->
      PlaylistVideos.list_playlist_videos_page client playlist_id page_token max_items
        include_shorts include_live parts_level budget st
      = (Raise (ValueError "Quota budget too low"), st))
  /\ (forall page st',
        PlaylistVideos.list_playlist_videos_page client playlist_id page_token max_items
          include_shorts include_live parts_level budget st
        = (Ok page, st') ->
        exists cs,
          trace st' = (trace st ++ cs)%list
          /\ QuotaBudgeter.estimated_units (PlaylistVideos.quota_estimate page)
             = Z.of_nat (length cs)
          /\ ((map call_op cs = [playlist_items_list]
               /\ PlaylistVideos.items page = []
               /\ PlaylistVideos.next_page_token page = None)
              \/ map call_op cs = [playlist_items_list; videos_list])).
Proof.
  unfold PlaylistVideos.list_playlist_videos_page.
  split; [|split; [|split]].
  - intros ->. rewrite orb_true_r. reflexivity.
  - intros Hp Hm.
    assert (Hp' : playlist_id <> "") by (intros ->; apply Hp; reflexivity).
    rewrite (eqb_empty_false _ Hp), (eqb_empty_false _ Hp'). cbn [orb].
    destruct (Z.leb_spec max_items 0); [reflexivity|lia].
  - intros Hp Hm Hq.
    assert (Hp' : playlist_id <> "") by (intros ->; apply Hp; reflexivity).
    rewrite (eqb_empty_false _ Hp), (eqb_empty_false _ Hp'). cbn [orb].
    destruct (Z.leb_spec max_items 0); [lia|].
    unfold QuotaBudgeter.QUOTA_COST_READ.
    destruct (Z.gtb_spec (1 + 1) (QuotaBudgeter.max_quota_units budget));
      [reflexivity|lia].
  - intros page st'.
    destruct (_ || _); [discriminate|].
    destruct (max_items <=? 0); [discriminate|].
    destruct (_ >? _); [discriminate|].
    unfold bind, lift. rewrite invoke_perform.
    set (c1 := {| call_op := playlist_items_list; call_part := _; call_params := _ |}).
    destruct (fst (perform client c1 (world st))) as [resp|]; [|discriminate].
    destruct (PlaylistItemsExtract.extract_video_ids _ _) as [|k0 kept].
    + unfold ret. intros [= <- <-]. exists [c1]. cbn. repeat split. left.
      repeat split.
    + rewrite invoke_perform.
      set (c2 := {| call_op := videos_list; call_part := _; call_params := _ |}).
      destruct (fst (perform client c2 _)) as [vresp|]; [|discriminate].
      destruct (PlaylistVideos._filter_videos _ _ _) as [filtered|]; [|discriminate].
      unfold ret. intros [= <- <-]. exists [c1; c2]. cbn [trace].
      rewrite <- app_assoc. split; [reflexivity|]. split; [reflexivity|].
      right. reflexivity.
Qed.

(** The channel playlist listing never consults its budget.  When it
    succeeds it has issued two calls, the channel lookup (without the
    uploads playlist) and the playlist listing, and reports one unit. *)
Theorem list_channel_playlists_shape
    (channel_ref : string) (page_token : option string)
    (budget : QuotaBudgeter.QuotaBudget) (st : state W) :
  (forall budget',
     ChannelPlaylists.list_channel_playlists_page urlparse client channel_ref
       page_token budget' st
     = ChannelPlaylists.list_channel_playlists_page urlparse client channel_ref
         page_token budget st)
  /\ (forall page st',
        ChannelPlaylists.list_channel_playlists_page urlparse client channel_ref
          page_token budget st
        = (Ok page, st') ->
        QuotaBudgeter.estimated_units (ChannelPlaylists.quota_estimate page) = 1
        /\ exists c1 c2,
             trace st' = (trace st ++ [c1; c2])%list
             /\ call_op c1 = channels_list /\ call_op c2 = playlists_list).
Proof.
  split; [reflexivity|].
  intros page st'. unfold ChannelPlaylists.list_channel_playlists_page, bind.
  destruct (ChannelResolver.resolve_channel _ _ _ _ _ _) as [[resolved|] st1] eqn:Hres;
    [|discriminate].
  destruct (resolve_strict_trace _ _ _ _ _ _ _ Hres) as (c1 & Hc1 & Ht1).
  rewrite invoke_perform.
  set (c2 := {| call_op := playlists_list; call_part := _; call_params := _ |}).
  destruct (fst (perform client c2 _)) as [resp|]; [|discriminate].
  unfold ret. intros [= <- <-]. split; [reflexivity|].
  exists c1, c2. cbn [trace]. rewrite Ht1, <- app_assoc.
  split; [reflexivity|]. split; [exact Hc1|reflexivity].
Qed.


End Listings.

(** ** The further properties on the canned clients *)

Section MoreExamples.
Import Client InventoryTypes Fixtures.

(** A best-effort resolution of [Acme]: one call, a search. *)
Lemma resolve_channel_calls_witness :
  exists r st',
    ChannelResolver.resolve_channel UrlParse.urlparse
      (fake_client [] [found_channel "UC_1" "A"]) "Acme"
      ChannelResolver.best_effort true start = (r, st')
    /\ (st' = start
        \/ exists c, trace st' = (trace start ++ [c])%list
                     /\ (call_op c = channels_list
                         \/ (call_op c = search_list
                             /\ ChannelResolver.best_effort = ChannelResolver.best_effort)))
    /\ (forall e, ChannelRef.parse_channel_ref UrlParse.urlparse "Acme" = Raise e ->
          r = Raise e /\ st' = start).
Proof.
  eexists _, _. split; [vm_compute; reflexivity|].
  eapply (resolve_channel_calls UrlParse.urlparse
           (fake_client [] [found_channel "UC_1" "A"]) "Acme"
           ChannelResolver.best_effort true start).
  vm_compute. reflexivity.
Defined.

Lemma resolve_channel_mode_irrelevant_witness :
  ChannelResolver.resolve_channel UrlParse.urlparse (fake_client [] []) "@Handle"
    ChannelResolver.best_effort true start
  = ChannelResolver.resolve_channel UrlParse.urlparse (fake_client [] []) "@Handle"
      ChannelResolver.strict true start.
Proof.
  apply (resolve_channel_mode_irrelevant UrlParse.urlparse (fake_client [] [])
           "@Handle"
           {| ChannelRef.kind := ChannelRef.handle; ChannelRef.value := "Handle";
              ChannelRef.raw := "@Handle" |} true start);
    [vm_compute; reflexivity | left; reflexivity].
Defined.

(** The lookup of a user URL, with the uploads playlist asked for. *)
Lemma resolve_channel_lookup_witness :
  snd (ChannelResolver.resolve_channel UrlParse.urlparse (fake_client [] [])
         "https://www.youtube.com/user/GoogleDevelopers" ChannelResolver.strict true
         start)
  = {| world := tt;
       trace := [{| call_op := channels_list;
                    call_part := "snippet,id,contentDetails";
                    call_params := [("forUsername", Some "GoogleDevelopers")] |}] |}
  /\ exists r,
       fst (ChannelResolver.resolve_channel UrlParse.urlparse (fake_client [] [])
              "https://www.youtube.com/user/GoogleDevelopers" ChannelResolver.strict
              true start)
       = Ok r
       /\ ChannelResolver.channel_id r = Some "UC_x"
       /\ ChannelResolver.uploads_playlist_id r = Some "UU_x".
Proof.
  apply (resolve_channel_lookup UrlParse.urlparse (fake_client [] [])
           "https://www.youtube.com/user/GoogleDevelopers"
           {| ChannelRef.kind := ChannelRef.username;
              ChannelRef.value := "GoogleDevelopers";
              ChannelRef.raw := "https://www.youtube.com/user/GoogleDevelopers" |}
           ChannelResolver.strict true start);
    [vm_compute; reflexivity | right; right; reflexivity].
Defined.

Lemma resolve_strict_shape_witness :
  exists r st',
    ChannelResolver.resolve_channel UrlParse.urlparse (fake_client [] []) "@Handle"
      ChannelResolver.strict false start = (Ok r, st')
    /\ ChannelResolver.candidates r = []
    /\ ChannelResolver.channel_id r <> Some ""
    /\ ChannelResolver.title r <> Some ""
    /\ ChannelResolver.handle r <> Some ""
    /\ ChannelResolver.uploads_playlist_id r <> Some ""
    /\ ChannelResolver.warnings r
       = (if false then
            match ChannelResolver.uploads_playlist_id r with
            | None => ["uploadsPlaylistId not available"]
            | Some _ => []
            end
          else [])
    /\ (false = false -> ChannelResolver.uploads_playlist_id r = None).
Proof.
  eexists _, _. split; [vm_compute; reflexivity|].
  eapply (resolve_strict_shape UrlParse.urlparse (fake_client [] []) "@Handle" false
           start).
  vm_compute. reflexivity.
Defined.

(** A ceiling of 2 units refuses 200 videos with details, on every
    pipeline, before any call. *)
Lemma budget_preflight_witness :
  ChannelInventory.list_channel_videos_page UrlParse.urlparse (fake_client [] [])
    "@Handle" 200 None true true "basic"
    {| QuotaBudgeter.max_videos := 200; QuotaBudgeter.max_pages := 10;
       QuotaBudgeter.max_quota_units := 2 |} start
  = (Raise (QuotaBudgetExceeded "Estimated quota 8 exceeds max_quota_units=2"), start)
  /\ ChannelVideosOrderingLocal.list_channel_videos_local_sorted UrlParse.urlparse
       (fake_client [] []) "@Handle" "viewCount" 200 None true true "basic"
       {| QuotaBudgeter.max_videos := 200; QuotaBudgeter.max_pages := 10;
          QuotaBudgeter.max_quota_units := 2 |} start
     = (Raise (QuotaBudgetExceeded "Estimated quota 8 exceeds max_quota_units=2"), start)
  /\ ChannelVideosOrderingSearch.list_channel_videos_search_api UrlParse.urlparse
       (fake_client [] []) "@Handle" "date" 200 None true true "basic"
       {| QuotaBudgeter.max_videos := 200; QuotaBudgeter.max_pages := 10;
          QuotaBudgeter.max_quota_units := 2 |} start
     = (Raise (QuotaBudgetExceeded "Estimated quota 404 exceeds max_quota_units=2"),
        start)
  /\ ChannelSearch.search_channel_videos_page UrlParse.urlparse
       (fake_client [] []) "@Handle" "hello" None 200 true true "basic" "relevance"
       {| QuotaBudgeter.max_videos := 200; QuotaBudgeter.max_pages := 10;
          QuotaBudgeter.max_quota_units := 2 |} start
     = (Raise (QuotaBudgetExceeded "Estimated quota 404 exceeds max_quota_units=2"),
        start).
Proof.
  pose proof (budget_preflight UrlParse.urlparse (fake_client [] [])
                "@Handle" "viewCount" "basic" "hello" "relevance" 200 None true true
                {| QuotaBudgeter.max_videos := 200; QuotaBudgeter.max_pages := 10;
                   QuotaBudgeter.max_quota_units := 2 |} start
                (QuotaBudgetExceeded "Estimated quota 8 exceeds max_quota_units=2"))
    as (H1 & H2 & _).
  pose proof (budget_preflight UrlParse.urlparse (fake_client [] [])
                "@Handle" "date" "basic" "hello" "relevance" 200 None true true
                {| QuotaBudgeter.max_videos := 200; QuotaBudgeter.max_pages := 10;
                   QuotaBudgeter.max_quota_units := 2 |} start
                (QuotaBudgetExceeded "Estimated quota 404 exceeds max_quota_units=2"))
    as (_ & _ & H3).
  split; [apply H1; vm_compute; reflexivity|].
  split; [apply H2; [vm_compute; reflexivity|reflexivity]|].
  destruct H3 as [H3 H4]; [vm_compute; reflexivity|].
  split; [apply H3; left; reflexivity|apply H4; vm_compute; discriminate].
Defined.

Lemma uploads_playlist_shape_witness :
  exists page st',
    ChannelInventory.list_channel_videos_page UrlParse.urlparse
      (fake_client [playlist_item "v1"; playlist_item "v2"; playlist_item "v3"] [])
      "@Handle" 2 None true true "basic" budget_1000 start
    = (Ok page, st')
    /\ 0 <= applied_max_videos page <= 2
    /\ (truncated page = true -> applied_max_videos page = 2)
    /\ QuotaBudgeter.estimate_channel_videos_quota "uploads_playlist" 2 budget_1000 true
       = Ok (quota_estimate page)
    /\ exists cs,
         trace st' = (trace start ++ cs)%list
         /\ ((map call_op cs = [channels_list; playlist_items_list]
              /\ applied_max_videos page = 0 /\ items page = []
              /\ next_page_token page = None /\ truncated page = false)
             \/ (map call_op cs = [channels_list; playlist_items_list; videos_list]
                 /\ 0 < applied_max_videos page)).
Proof.
  eexists _, _. split; [vm_compute; reflexivity|].
  eapply (uploads_playlist_shape UrlParse.urlparse
           (fake_client [playlist_item "v1"; playlist_item "v2"; playlist_item "v3"] [])
           "@Handle" "basic" 2 None true true budget_1000 start).
  vm_compute. reflexivity.
Defined.

Lemma search_api_shape_witness :
  exists page st',
    ChannelVideosOrderingSearch.list_channel_videos_search_api UrlParse.urlparse
      (fake_client [] [search_item "v1"; search_item "v2"; search_item "v3"])
      "@Handle" "date" 2 None true true "basic" budget_1000 start
    = (Ok page, st')
    /\ ("date" = "date" \/ "date" = "viewCount")
    /\ 0 <= applied_max_videos page <= 2
    /\ truncated page = false
    /\ exists cs,
         trace st' = (trace start ++ cs)%list
         /\ ((map call_op cs = [channels_list; search_list]
              /\ applied_max_videos page = 0 /\ items page = []
              /\ next_page_token page = None)
             \/ (map call_op cs = [channels_list; search_list; videos_list]
                 /\ 0 < applied_max_videos page)).
Proof.
  eexists _, _. split; [vm_compute; reflexivity|].
  eapply (search_api_shape UrlParse.urlparse
           (fake_client [] [search_item "v1"; search_item "v2"; search_item "v3"])
           "@Handle" "date" "basic" 2 None true true budget_1000 start).
  vm_compute. reflexivity.
Defined.

(** The local sort over three pages of three identifiers, seven asked for. *)
Lemma local_sort_shape_witness :
  exists page st',
    ChannelVideosOrderingLocal.list_channel_videos_local_sorted UrlParse.urlparse
      (fake_client [playlist_item "v1"; playlist_item "v2"; playlist_item "v3"] [])
      "@Handle" "viewCount" 7 None true true "basic" budget_1000 start
    = (Ok page, st')
    /\ next_page_token page = None
    /\ 0 <= applied_max_videos page <= 7
    /\ Forall is_dict (items page)
    /\ StronglySorted (not_above (ChannelVideosOrderingLocal.key_of "viewCount"))
         (items page)
    /\ exists c1 ps vs,
         trace st' = (trace start ++ c1 :: ps ++ vs)%list
         /\ call_op c1 = channels_list
         /\ Forall (fun c => call_op c = playlist_items_list) ps
         /\ (length ps <= Z.to_nat (QuotaBudgeter.max_pages budget_1000))%nat
         /\ Forall (fun c => call_op c = videos_list) vs
         /\ Z.of_nat (length vs) = (applied_max_videos page + 49) / 50.
Proof.
  eexists _, _. split; [vm_compute; reflexivity|].
  eapply (local_sort_shape UrlParse.urlparse
           (fake_client [playlist_item "v1"; playlist_item "v2"; playlist_item "v3"] [])
           "@Handle" "viewCount" "basic" 7 None true true budget_1000 start).
  vm_compute. reflexivity.
Defined.

Lemma list_playlist_videos_outcomes_witness :
  PlaylistVideos.list_playlist_videos_page tools_client "  " None 50 false true "basic"
    budget_1000 start
  = (Raise (ValueError "playlist_id is required"), start)
  /\ PlaylistVideos.list_playlist_videos_page tools_client "PL_x" None 0 false true
       "basic" budget_1000 start
     = (Raise (ValueError "max_items must be positive"), start)
  /\ PlaylistVideos.list_playlist_videos_page tools_client "PL_x" None 50 false true
       "basic"
       {| QuotaBudgeter.max_videos := 200; QuotaBudgeter.max_pages := 10;
          QuotaBudgeter.max_quota_units := 1 |} start
     = (Raise (ValueError "Quota budget too low"), start)
  /\ exists page st',
       PlaylistVideos.list_playlist_videos_page tools_client "PL_x" None 50 false true
         "basic" budget_1000 start
       = (Ok page, st')
       /\ exists cs,
            trace st' = (trace start ++ cs)%list
            /\ QuotaBudgeter.estimated_units (PlaylistVideos.quota_estimate page)
               = Z.of_nat (length cs)
            /\ ((map call_op cs = [playlist_items_list]
                 /\ PlaylistVideos.items page = []
                 /\ PlaylistVideos.next_page_token page = None)
                \/ map call_op cs = [playlist_items_list; videos_list]).
Proof.
  split; [|split; [|split]].
  - apply (proj1 (list_playlist_videos_outcomes tools_client "  " "basic" None 50
                    false true budget_1000 start)).
    reflexivity.
  - apply (proj1 (proj2 (list_playlist_videos_outcomes tools_client "PL_x" "basic" None
                           0 false true budget_1000 start)));
      [vm_compute; discriminate | lia].
  - apply (proj1 (proj2 (proj2 (list_playlist_videos_outcomes tools_client "PL_x"
                                  "basic" None 50 false true
                                  {| QuotaBudgeter.max_videos := 200;
                                     QuotaBudgeter.max_pages := 10;
                                     QuotaBudgeter.max_quota_units := 1 |} start))));
      [vm_compute; discriminate | lia | cbn; lia].
  - eexists _, _. split; [vm_compute; reflexivity|].
    apply (proj2 (proj2 (proj2 (list_playlist_videos_outcomes tools_client "PL_x"
                                  "basic" None 50 false true budget_1000 start)))).
    vm_compute. reflexivity.
Defined.

Lemma list_channel_playlists_shape_witness :
  exists page st',
    ChannelPlaylists.list_channel_playlists_page UrlParse.urlparse tools_client
      "@Handle" None budget_1000 start
    = (Ok page, st')
    /\ QuotaBudgeter.estimated_units (ChannelPlaylists.quota_estimate page) = 1
    /\ exists c1 c2,
         trace st' = (trace start ++ [c1; c2])%list
         /\ call_op c1 = channels_list /\ call_op c2 = playlists_list.
Proof.
  eexists _, _. split; [vm_compute; reflexivity|].
  apply (proj2 (list_channel_playlists_shape UrlParse.urlparse tools_client
                  "@Handle" None budget_1000 start)).
  vm_compute. reflexivity.
Defined.


End MoreExamples.
